(** * Data validation stage of the network-security pipeline

    A shallow embedding of [networksecurity/components/data_validation.py]
    and [networksecurity/exception/exception.py].

    The validator is a Python class whose methods read and write files, log,
    call pandas / scipy and raise exceptions.  Here

    - the mutable outside world (file contents, and the ordered trail of
      calls that left the process) is an explicit state [world];
    - a method is a function in the state-and-exception monad [M];
    - pandas' CSV codec, scipy's [ks_2samp], the YAML codec and the operating
      system's verdict on directory creation and file writes are the fields
      of the class [Collaborators]: every theorem holds for all of them. *)

From Stdlib Require Import Floats.PrimFloat.
From Stdlib Require Import Ascii String.
From Stdlib Require Import Floats.FloatOps Floats.SpecFloat.
From stdpp Require Import gmap strings list fin_maps pretty.

Open Scope string_scope.

(** ** Exceptions *)

(** [exception.py]: a [NetworkSecurityException] keeps the object it was
    built from in [error_message] and the line of the handler's frame at
    which the exception being handled passed ([exc_tb.tb_lineno]).  Its
    [filename] is that of the frame's code object; every handler modelled
    here sits in [data_validation.py], so the field is one constant and is
    left out.  Every other exception is a class name with its message;
    all are instances of [Exception], which is what the handlers catch
    (signals such as [KeyboardInterrupt] are not modelled). *)
Inductive exn : Type :=
| PyExc (cls : string) (msg : string)
| NetworkSecurityException (error_message : exn) (lineno : nat).


(** An exception together with the line of the current frame it crossed. *)
Definition located : Type := exn * nat.

(** ** Values *)

(** A cell of a table read from CSV: an integer, a float (NaN for a
    missing cell) or text. *)
Inductive cell : Type :=
| Int (z : Z)
| Float (x : float)
| Str (s : string).

(** A [pandas.DataFrame]: its columns in order, each a label with the
    values of its rows. *)
Definition DataFrame : Type := list (string * list cell).

(** [df.columns] *)
Definition columns (df : DataFrame) : list string := map fst df.

(** [df.shape[1]] *)
Definition shape1 (df : DataFrame) : nat := length df.

(** [df[label]] is a [Series] when one column carries the label and a frame
    of all the columns that carry it when several do. *)
Inductive selection : Type :=
| Series (values : list cell)
| SubFrame (cols : list (list cell)).

Definition getitem (df : DataFrame) (label : string) : exn + selection :=
  match List.filter (fun col => String.eqb (fst col) label) df with
  | [] => inl (PyExc "KeyError" label)
  | [col] => inr (Series (snd col))
  | cols => inr (SubFrame (map snd cols))
  end.

(** A loaded YAML document.  A mapping is the item list of the Python
    [dict] that holds it, in insertion order. *)
#[local] Set Warnings "-register-all".
Inductive yaml : Type :=
| YNull
| YInt (z : Z)
| YStr (s : string)
| YSeq (items : list yaml)
| YMap (entries : list (string * yaml)).

Fixpoint assoc {A} (k : string) (l : list (string * A)) : option A :=
  match l with
  | [] => None
  | (k', v) :: l' => if String.eqb k' k then Some v else assoc k l'
  end.

(** [v[key]] for a string key. *)
Definition yaml_getitem (v : yaml) (key : string) : exn + yaml :=
  match v with
  | YMap entries =>
      match assoc key entries with
      | Some x => inr x
      | None => inl (PyExc "KeyError" key)
      end
  | YNull => inl (PyExc "TypeError" "'NoneType' object is not subscriptable")
  | YInt _ => inl (PyExc "TypeError" "'int' object is not subscriptable")
  | YStr _ => inl (PyExc "TypeError" "string indices must be integers")
  | YSeq _ => inl (PyExc "TypeError" "list indices must be integers or slices, not str")
  end.

(** [len(v)] *)
Definition yaml_len (v : yaml) : exn + nat :=
  match v with
  | YMap entries => inr (length entries)
  | YSeq items => inr (length items)
  | YStr s => inr (String.length s)
  | YNull => inl (PyExc "TypeError" "object of type 'NoneType' has no len()")
  | YInt _ => inl (PyExc "TypeError" "object of type 'int' has no len()")
  end.

(** [list(v.keys())] *)
Definition yaml_keys (v : yaml) : exn + list string :=
  match v with
  | YMap entries => inr (map fst entries)
  | YNull => inl (PyExc "AttributeError" "'NoneType' object has no attribute 'keys'")
  | YInt _ => inl (PyExc "AttributeError" "'int' object has no attribute 'keys'")
  | YStr _ => inl (PyExc "AttributeError" "'str' object has no attribute 'keys'")
  | YSeq _ => inl (PyExc "AttributeError" "'list' object has no attribute 'keys'")
  end.

(** One entry of the drift report, and the report: a Python [dict] from
    column label to entry, as its item list in insertion order. *)
Record drift_entry : Type := {
  p_value : float;
  drift_status : bool
}.

Definition report : Type := list (string * drift_entry).

(** [d[k] = v]: a key already present keeps its place and takes the new
    value, a new key goes last. *)
Fixpoint dict_set {A} (d : list (string * A)) (k : string) (v : A)
  : list (string * A) :=
  match d with
  | [] => [(k, v)]
  | (k', v') :: d' =>
      if String.eqb k' k then (k', v) :: d' else (k', v') :: dict_set d' k v
  end.

(** ** Entities: only the fields the validator touches
    ([entity/artifact_entity.py] and [entity/config_entity.py]). *)

Record DataIngestionArtifacts : Type := {
  trained_file_path : string;
  test_file_path : string
}.

Record DataValidationConfig : Type := {
  cfg_valid_train_file_path : string;
  cfg_valid_test_file_path : string;
  cfg_drift_report_file_path : string
}.

Record DataValidationArtifacts : Type := {
  validation_status : bool;
  valid_train_file_path : string;
  valid_test_file_path : string;
  invalid_train_file_path : option string;
  invalid_test_file_path : option string;
  drift_report_file_path : string
}.

(** ** The world *)

(** Arguments of the [logging.info] calls, in place of the formatted text. *)
Inductive log_record : Type :=
| LogRequiredNumber (n : nat)
| LogDataFrameColumns (n : nat)
| LogMissingColumns (cols : list string)
| LogCompleted (artifact : DataValidationArtifacts).

(** What leaves the process, in order. *)
Inductive event : Type :=
| EvLog (r : log_record)
| EvReadYaml (path : string)
| EvReadCsv (path : string)
| EvKs2samp (d1 d2 : selection)
| EvMakedirs (dir : string)
| EvWriteYaml (path : string) (content : report)
| EvToCsv (path : string) (df : DataFrame).

Record world : Type := {
  files : gmap string string;
  trace : list event
}.

Definition emit (ev : event) (w : world) : world :=
  {| files := files w; trace := trace w ++ [ev] |}.

Definition store (path : string) (bytes : string) (w : world) : world :=
  {| files := <[path := bytes]> (files w); trace := trace w |}.

(** ** The monad: state that survives an exception *)

Definition M (E A : Type) : Type := world -> (E + A) * world.

Definition ret {E A} (a : A) : M E A := fun w => (inr a, w).

Definition raise {E A} (e : E) : M E A := fun w => (inl e, w).

Definition bind {E A B} (m : M E A) (k : A -> M E B) : M E B :=
  fun w =>
    match m w with
    | (inl e, w') => (inl e, w')
    | (inr a, w') => k a w'
    end.

Definition lift {E A} (r : E + A) : M E A := fun w => (r, w).

(** [m] returns [a], whatever the world it runs in. *)
Definition answers {A} (m : M exn A) (a : A) : Prop :=
  forall w, fst (m w) = inr a.

Definition tell {E} (ev : event) : M E unit := fun w => (inr tt, emit ev w).

Declare Scope py_scope.
Delimit Scope py_scope with py.
Notation "x <- m ;; k" := (bind m (fun x => k))
  (at level 100, m at next level, right associativity) : py_scope.
Notation "m ;; k" := (bind m (fun _ => k))
  (at level 100, right associativity) : py_scope.
Open Scope py_scope.

(** A statement of a method body at source line [n]: what the callee raises
    crosses the frame at [n]. *)
Definition at_line {A} (n : nat) (m : M exn A) : M located A :=
  fun w =>
    match m w with
    | (inl e, w') => (inl (e, n), w')
    | (inr a, w') => (inr a, w')
    end.

(** [try: body  except Exception as e: raise NetworkSecurityException(e, sys)] *)
Definition try_except {A} (body : M located A) : M exn A :=
  fun w =>
    match body w with
    | (inl (e, n), w') => (inl (NetworkSecurityException e n), w')
    | (inr a, w') => (inr a, w')
    end.

(** [logging.info(...)] *)
Definition logging_info (r : log_record) : M located unit := tell (EvLog r).

(** Events of drift detection proper: a KS test or a report write. *)
Definition drift_event (ev : event) : bool :=
  match ev with
  | EvKs2samp _ _ | EvWriteYaml _ _ => true
  | _ => false
  end.

Definition is_ks_event (ev : event) : bool :=
  match ev with
  | EvKs2samp _ _ => true
  | _ => false
  end.

(** ** Collaborators *)

(** What the process asks of the operating system. *)
Inductive fs_op : Type :=
| Makedirs (dir : string)
| OpenWrite (path : string).

(** The libraries and constants the validator is built on.  [os_error op]
    is the exception the operating system answers [op] with, if any. *)
Class Collaborators : Type := {
  SCHEMA_FILE_PATH : string;
  yaml_load : string -> exn + yaml;
  yaml_dump : report -> string;
  csv_parse : string -> exn + DataFrame;
  csv_render : DataFrame -> string;
  ks_2samp : selection -> selection -> exn + float;
  os_error : fs_op -> option exn
}.

(** [os.path.dirname] of [posixpath]: everything up to the last slash,
    without trailing slashes unless it is made of slashes only. *)
Definition is_slash (c : Ascii.ascii) : bool := Ascii.eqb c "/"%char.

Fixpoint drop_while {A} (f : A -> bool) (l : list A) : list A :=
  match l with
  | [] => []
  | x :: l' => if f x then drop_while f l' else l
  end.

Definition dirname (p : string) : string :=
  let head := drop_while (fun c => negb (is_slash c)) (rev (list_ascii_of_string p)) in
  if forallb is_slash head then string_of_list_ascii (rev head)
  else string_of_list_ascii (rev (drop_while is_slash head)).

(** [threshold=0.05], the double nearest to it. *)
#[local] Set Warnings "-inexact-float".
Definition threshold_default : float := 0.05%float.

Section Validator.

Context `{Collaborators}.

(** [os.makedirs(dir, exist_ok=True)] *)
Definition os_makedirs (dir : string) : M exn unit :=
  tell (EvMakedirs dir);;
  match os_error (Makedirs dir) with
  | Some e => raise e
  | None => ret tt
  end.

(** [pd.read_csv(file_path)] *)
Definition pd_read_csv (file_path : string) : M exn DataFrame :=
  tell (EvReadCsv file_path);;
  fun w =>
    match files w !! file_path with
    | None => (inl (PyExc "FileNotFoundError" file_path), w)
    | Some bytes => (csv_parse bytes, w)
    end.

(** [df.to_csv(path, index=False, header=True)] *)
Definition to_csv (df : DataFrame) (path : string) : M exn unit :=
  tell (EvToCsv path df);;
  match os_error (OpenWrite path) with
  | Some e => raise e
  | None => fun w => (inr tt, store path (csv_render df) w)
  end.

(** [scipy.stats.ks_2samp(d1, d2).pvalue] *)
Definition call_ks_2samp (d1 d2 : selection) : M exn float :=
  tell (EvKs2samp d1 d2);;
  lift (ks_2samp d1 d2).

(** Modelled from the spec: [read_yaml_file] of
    [networksecurity/utils/main_utils/utils.py], which is not among the
    sources.  Section 4.3 step 1 and section 7: the load fails when the
    document is missing or malformed; section 3 and section 8: the schema
    is a non-empty mapping from column name to type tag, and a schema with
    zero columns is rejected at load time.  The validator reads that mapping
    under the key ["columns"]. *)
Definition read_yaml_file (file_path : string) : M exn yaml :=
  tell (EvReadYaml file_path);;
  fun w =>
    match files w !! file_path with
    | None => (inl (PyExc "FileNotFoundError" file_path), w)
    | Some bytes =>
        match yaml_load bytes with
        | inl e => (inl e, w)
        | inr doc =>
            match yaml_getitem doc "columns" with
            | inr (YMap (_ :: _)) => (inr doc, w)
            | inr (YMap []) =>
                (inl (PyExc "SchemaLoadError" "schema declares zero columns"), w)
            | _ => (inl (PyExc "SchemaLoadError" "malformed schema"), w)
            end
        end
    end.

(** Modelled from the spec: [write_yaml_file] of
    [networksecurity/utils/main_utils/utils.py], which is not among the
    sources.  Section 6: the report is written as one structured document
    at the configured path; section 5: create-or-truncate; section 7: the
    write fails when the target cannot be created or written. *)
Definition write_yaml_file (file_path : string) (content : report) : M exn unit :=
  tell (EvWriteYaml file_path content);;
  match os_error (OpenWrite file_path) with
  | Some e => raise e
  | None => fun w => (inr tt, store file_path (yaml_dump content) w)
  end.

(** ** class DataValidation *)

Record DataValidation : Type := {
  data_ingestion_artifact : DataIngestionArtifacts;
  data_validation_config : DataValidationConfig;
  schema_config : yaml
}.

Definition __init__ (data_ingestion_artifact : DataIngestionArtifacts)
    (data_validation_config : DataValidationConfig) : M exn DataValidation :=
  try_except (
    schema_config <- at_line 21 (read_yaml_file SCHEMA_FILE_PATH);;
    ret {| data_ingestion_artifact := data_ingestion_artifact;
           data_validation_config := data_validation_config;
           schema_config := schema_config |}).

Definition read_data (file_path : string) : M exn DataFrame :=
  try_except (at_line 29 (pd_read_csv file_path)).

(** [len(self.schema_config["columns"])] *)
Definition schema_len (self : DataValidation) : exn + nat :=
  match yaml_getitem (schema_config self) "columns" with
  | inl e => inl e
  | inr cols => yaml_len cols
  end.

(** [list(self.schema_config["columns"].keys())] *)
Definition schema_keys (self : DataValidation) : exn + list string :=
  match yaml_getitem (schema_config self) "columns" with
  | inl e => inl e
  | inr cols => yaml_keys cols
  end.

Definition validate_number_of_columns (self : DataValidation)
    (dataframe : DataFrame) : M exn bool :=
  try_except (
    required_columns <- at_line 36 (lift (schema_len self));;
    let dataframe_columns := shape1 dataframe in
    logging_info (LogRequiredNumber required_columns);;
    logging_info (LogDataFrameColumns dataframe_columns);;
    ret (Nat.eqb dataframe_columns required_columns)).

(** [col in dataframe.columns] *)
Definition label_in (col : string) (labels : list string) : bool :=
  existsb (String.eqb col) labels.

(** [[col for col in required_columns if col not in dataframe_columns]] *)
Definition missing_of (required_columns dataframe_columns : list string)
  : list string :=
  List.filter (fun col => negb (label_in col dataframe_columns)) required_columns.

Definition validate_required_columns (self : DataValidation)
    (dataframe : DataFrame) : M exn bool :=
  try_except (
    required_columns <- at_line 49 (lift (schema_keys self));;
    let dataframe_columns := columns dataframe in
    let missing_columns := missing_of required_columns dataframe_columns in
    match missing_columns with
    | _ :: _ =>
        logging_info (LogMissingColumns missing_columns);;
        ret false
    | [] => ret true
    end).

(** Lines 67-77: one turn of the loop, up to the entry stored for
    [column]. *)
Definition test_column (base_df current_df : DataFrame) (threshold : float)
    (column : string) : M located drift_entry :=
  d1 <- at_line 67 (lift (getitem base_df column));;
  d2 <- at_line 68 (lift (getitem current_df column));;
  p_value <- at_line 70 (call_ks_2samp d1 d2);;
  let drift_found := (p_value <? threshold)%float in
  ret {| p_value := p_value; drift_status := drift_found |}.

(** Lines 66-80: [for column in base_df.columns], on the loop state
    [(status, report)]. *)
Fixpoint for_columns (base_df current_df : DataFrame) (threshold : float)
    (cols : list string) (status : bool) (rep : report)
  : M located (bool * report) :=
  match cols with
  | [] => ret (status, rep)
  | column :: rest =>
      entry <- test_column base_df current_df threshold column;;
      let rep := dict_set rep column entry in
      let status := if drift_status entry then false else status in
      for_columns base_df current_df threshold rest status rep
  end.

Definition detect_dataset_drift (self : DataValidation)
    (base_df current_df : DataFrame) (threshold : float) : M exn bool :=
  try_except (
    let status := true in
    let rep : report := [] in
    loop <- for_columns base_df current_df threshold
              (columns base_df) status rep;;
    let '(status, rep) := loop in
    let drift_report_file_path :=
      cfg_drift_report_file_path (data_validation_config self) in
    at_line 83 (os_makedirs (dirname drift_report_file_path));;
    at_line 85 (write_yaml_file drift_report_file_path rep);;
    ret status).

(** Vocabulary for statements about the drift loop. *)

(** [entry] is what line 74 stores for [column]: the p-value of the KS test
    on the two selections of that label, and its comparison with the
    threshold. *)
Definition entry_of (base_df current_df : DataFrame) (threshold : float)
    (column : string) (entry : drift_entry) : Prop :=
  exists d1 d2,
    getitem base_df column = inr d1
    /\ getitem current_df column = inr d2
    /\ ks_2samp d1 d2 = inr (p_value entry)
    /\ drift_status entry = (p_value entry <? threshold)%float.

(** The KS test answers with a p-value on [column]. *)
Definition testable (base_df current_df : DataFrame) (column : string) : Prop :=
  exists d1 d2 p,
    getitem base_df column = inr d1
    /\ getitem current_df column = inr d2
    /\ ks_2samp d1 d2 = inr p.

(** Some entry of the report flags drift. *)
Definition any_drift (rep : report) : bool :=
  existsb (fun item => drift_status (snd item)) rep.

(** What holds of the loop state between two turns: one entry per label,
    each entry the one of its label, and [status] still [True] exactly when
    no entry flags drift. *)
Definition report_ok (base_df current_df : DataFrame) (threshold : float)
    (status : bool) (rep : report) : Prop :=
  NoDup (map fst rep)
  /\ Forall (fun item => entry_of base_df current_df threshold (fst item) (snd item)) rep
  /\ status = negb (any_drift rep).

(** [if not ok: raise Exception(msg)] at line [n]. *)
Definition require (ok : bool) (n : nat) (msg : string) : M located unit :=
  if ok then ret tt else at_line n (raise (PyExc "Exception" msg)).

Definition initiate_data_validation (self : DataValidation)
  : M exn DataValidationArtifacts :=
  try_except (
    let train_file_path := trained_file_path (data_ingestion_artifact self) in
    let test_file_path := test_file_path (data_ingestion_artifact self) in
    train_df <- at_line 97 (read_data train_file_path);;
    test_df <- at_line 98 (read_data test_file_path);;
    ok <- at_line 101 (validate_number_of_columns self train_df);;
    require ok 102 "Number of columns do not match schema for training data.";;
    ok <- at_line 103 (validate_number_of_columns self test_df);;
    require ok 104 "Number of columns do not match schema for testing data.";;
    ok <- at_line 107 (validate_required_columns self train_df);;
    require ok 108 "Required columns missing in training data.";;
    ok <- at_line 109 (validate_required_columns self test_df);;
    require ok 110 "Required columns missing in testing data.";;
    validation_status <-
      at_line 113 (detect_dataset_drift self train_df test_df threshold_default);;
    let config := data_validation_config self in
    at_line 116 (os_makedirs (dirname (cfg_valid_train_file_path config)));;
    at_line 117 (to_csv train_df (cfg_valid_train_file_path config));;
    at_line 118 (to_csv test_df (cfg_valid_test_file_path config));;
    let data_validation_artifact :=
      {| validation_status := validation_status;
         valid_train_file_path := cfg_valid_train_file_path config;
         valid_test_file_path := cfg_valid_test_file_path config;
         invalid_train_file_path := None;
         invalid_test_file_path := None;
         drift_report_file_path := cfg_drift_report_file_path config |} in
    logging_info (LogCompleted data_validation_artifact);;
    ret data_validation_artifact).

(** Vocabulary for statements about a run. *)

(** The lines of [initiate_data_validation] that call a method of the
    class. *)
Definition helper_line (n : nat) : bool :=
  existsb (Nat.eqb n) [97; 98; 101; 103; 107; 109; 113].

(** The record lines 121-128 build from the loop's verdict. *)
Definition artifact_of (self : DataValidation) (status : bool)
  : DataValidationArtifacts :=
  {| validation_status := status;
     valid_train_file_path :=
       cfg_valid_train_file_path (data_validation_config self);
     valid_test_file_path :=
       cfg_valid_test_file_path (data_validation_config self);
     invalid_train_file_path := None;
     invalid_test_file_path := None;
     drift_report_file_path :=
       cfg_drift_report_file_path (data_validation_config self) |}.

(** Both tables are read from the files [fs] and pass the two checks. *)
Record structurally_valid (self : DataValidation) (fs : gmap string string)
    (train_df test_df : DataFrame) : Prop := {
  valid_train : exists bytes,
    fs !! trained_file_path (data_ingestion_artifact self) = Some bytes
    /\ csv_parse bytes = inr train_df;
  valid_test : exists bytes,
    fs !! test_file_path (data_ingestion_artifact self) = Some bytes
    /\ csv_parse bytes = inr test_df;
  valid_count_train : schema_len self = inr (shape1 train_df);
  valid_count_test : shape1 test_df = shape1 train_df;
  valid_required : exists keys,
    schema_keys self = inr keys
    /\ missing_of keys (columns train_df) = []
    /\ missing_of keys (columns test_df) = []
}.

(** What lets a run over the files [fs] go through: the tables are
    structurally valid, the loop ends with [(status, rep)], and the system
    allows the two directories and the three writes. *)
Record passes (self : DataValidation) (fs : gmap string string)
    (train_df test_df : DataFrame) (status : bool) (rep : report) : Prop := {
  passes_structure : structurally_valid self fs train_df test_df;
  passes_loop : forall w,
    fst (for_columns train_df test_df threshold_default (columns train_df)
           true [] w) = inr (status, rep);
  passes_report_dir :
    os_error (Makedirs (dirname (cfg_drift_report_file_path
                                   (data_validation_config self)))) = None;
  passes_report :
    os_error (OpenWrite (cfg_drift_report_file_path
                           (data_validation_config self))) = None;
  passes_valid_dir :
    os_error (Makedirs (dirname (cfg_valid_train_file_path
                                   (data_validation_config self)))) = None;
  passes_valid_train :
    os_error (OpenWrite (cfg_valid_train_file_path
                           (data_validation_config self))) = None;
  passes_valid_test :
    os_error (OpenWrite (cfg_valid_test_file_path
                           (data_validation_config self))) = None
}.

(** The files a run that goes through leaves behind: the report, then the
    train copy, then the test copy. *)
Definition files_after (self : DataValidation) (fs : gmap string string)
    (train_df test_df : DataFrame) (rep : report) : gmap string string :=
  <[cfg_valid_test_file_path (data_validation_config self) := csv_render test_df]>
    (<[cfg_valid_train_file_path (data_validation_config self) := csv_render train_df]>
       (<[cfg_drift_report_file_path (data_validation_config self) := yaml_dump rep]>
          fs)).

(** The trail a run that goes through adds, given the KS events of its
    loop. *)
Definition trail_of (self : DataValidation) (train_df test_df : DataFrame)
    (status : bool) (rep : report) (ks_events : list event) : list event :=
  let config := data_validation_config self in
  ([EvReadCsv (trained_file_path (data_ingestion_artifact self));
    EvReadCsv (test_file_path (data_ingestion_artifact self));
    EvLog (LogRequiredNumber (shape1 train_df));
    EvLog (LogDataFrameColumns (shape1 train_df));
    EvLog (LogRequiredNumber (shape1 train_df));
    EvLog (LogDataFrameColumns (shape1 test_df))]
   ++ ks_events
   ++ [EvMakedirs (dirname (cfg_drift_report_file_path config));
       EvWriteYaml (cfg_drift_report_file_path config) rep;
       EvMakedirs (dirname (cfg_valid_train_file_path config));
       EvToCsv (cfg_valid_train_file_path config) train_df;
       EvToCsv (cfg_valid_test_file_path config) test_df;
       EvLog (LogCompleted (artifact_of self status))])%list.

End Validator.

(** ** A small environment to run the validator in

    A line-based CSV codec for integer and text cells, a reader for schema
    documents of the shape [columns:] followed by [  name: type] lines, and
    a two-valued stand-in for the KS test.  It only serves to evaluate the
    model on examples. *)
Module Fixture.

Definition LF : Ascii.ascii := "010"%char.

Fixpoint split_on (sep : Ascii.ascii) (s : string) : list string :=
  match s with
  | EmptyString => [""]
  | String c s' =>
      if Ascii.eqb c sep then "" :: split_on sep s'
      else match split_on sep s' with
           | [] => [String c ""]
           | x :: xs => String c x :: xs
           end
  end.

(** The lines of a text; a final line break ends the last line. *)
Definition text_lines (s : string) : list string :=
  match rev (split_on LF s) with
  | "" :: ls => rev ls
  | ls => rev ls
  end.

Fixpoint join (sep : string) (l : list string) : string :=
  match l with
  | [] => ""
  | [x] => x
  | x :: l' => x ++ sep ++ join sep l'
  end.

Definition unlines (l : list string) : string :=
  String.concat "" (map (fun x => x ++ String LF "") l).

Definition digit (c : Ascii.ascii) : option Z :=
  let n := Z.of_nat (nat_of_ascii c) in
  if ((48 <=? n) && (n <=? 57))%Z then Some (n - 48)%Z else None.

Fixpoint decimal (acc : Z) (s : string) : option Z :=
  match s with
  | EmptyString => Some acc
  | String c s' =>
      match digit c with
      | Some d => decimal (10 * acc + d) s'
      | None => None
      end
  end.

Definition parse_cell (s : string) : cell :=
  match s with
  | EmptyString => Float nan
  | _ => match decimal 0 s with
         | Some z => Int z
         | None => Str s
         end
  end.

Definition render_cell (c : cell) : string :=
  match c with
  | Int z => pretty z
  | Float _ => ""
  | Str s => s
  end.

Definition parse (bytes : string) : exn + DataFrame :=
  match text_lines bytes with
  | [] => inl (PyExc "EmptyDataError" "No columns to parse from file")
  | header :: rows =>
      let cells := map (split_on ",") rows in
      inr (imap (fun i label =>
                   (label, map (fun row => parse_cell (nth i row "")) cells))
                (split_on "," header))
  end.

Definition render (df : DataFrame) : string :=
  let height := match df with [] => 0 | col :: _ => length (snd col) end in
  unlines (join "," (columns df)
           :: map (fun i => join "," (map (fun col =>
                             render_cell (nth i (snd col) (Float nan))) df))
                  (seq 0 height)).

Fixpoint strip (s : string) : string :=
  match s with
  | String " " s' => strip s'
  | _ => s
  end.

Definition schema_entry (line : string) : string * yaml :=
  match split_on ":" line with
  | name :: tag :: _ => (strip name, YStr (strip tag))
  | _ => (strip line, YNull)
  end.

Definition load (bytes : string) : exn + yaml :=
  match text_lines bytes with
  | [] => inr YNull
  | "columns:" :: rest => inr (YMap [("columns", YMap (map schema_entry rest))])
  | "columns: {}" :: _ => inr (YMap [("columns", YMap [])])
  | _ => inl (PyExc "ScannerError" "mapping values are not allowed here")
  end.

Definition dump_float (x : float) : string :=
  match Prim2SF x with
  | S754_zero _ => "0.0"
  | S754_infinity false => ".inf"
  | S754_infinity true => "-.inf"
  | S754_nan => ".nan"
  | S754_finite s m e =>
      (if s then "-" else "") ++ pretty (Zpos m) ++ "p" ++ pretty e
  end.

Definition dump (rep : report) : string :=
  unlines (flat_map (fun item =>
             [fst item ++ ":";
              "  drift_status: " ++ (if drift_status (snd item) then "true" else "false");
              "  p_value: " ++ dump_float (p_value (snd item))]) rep).

Definition is_text (c : cell) : bool :=
  match c with Str _ => true | _ => false end.

Definition cell_eqb (a b : cell) : bool :=
  match a, b with
  | Int x, Int y => (x =? y)%Z
  | Float x, Float y => (x =? y)%float
  | Int x, Float y | Float y, Int x => false
  | Str x, Str y => String.eqb x y
  | _, _ => false
  end.

Fixpoint same_values (v1 v2 : list cell) : bool :=
  match v1, v2 with
  | [], [] => true
  | a :: v1', b :: v2' => cell_eqb a b && same_values v1' v2'
  | _, _ => false
  end.

(** Stand-in for the KS test: p-value 1 for equal samples, 0 otherwise;
    empty samples and text are refused. *)
Definition ks (d1 d2 : selection) : exn + float :=
  match d1, d2 with
  | Series v1, Series v2 =>
      match v1, v2 with
      | [], _ | _, [] =>
          inl (PyExc "ValueError" "Data passed to ks_2samp must not be empty")
      | _, _ =>
          if existsb is_text v1 || existsb is_text v2
          then inl (PyExc "TypeError" "'<' not supported between instances of 'str' and 'float'")
          else inr (if same_values v1 v2 then 1 else 0)%float
      end
  | _, _ => inl (PyExc "ValueError" "Data passed to ks_2samp must be one-dimensional")
  end.

(** Every directory can be made; every file but those under [/proc] can be
    written. *)
Definition os (op : fs_op) : option exn :=
  match op with
  | Makedirs "" => Some (PyExc "FileNotFoundError" "[Errno 2] No such file or directory: ''")
  | Makedirs _ => None
  | OpenWrite path =>
      if String.prefix "/proc/" path
      then Some (PyExc "PermissionError" path)
      else None
  end.

#[export] Instance env : Collaborators := {|
  SCHEMA_FILE_PATH := "data_schema/schema.yaml";
  yaml_load := load;
  yaml_dump := dump;
  csv_parse := parse;
  csv_render := render;
  ks_2samp := ks;
  os_error := os
|}.

Definition NL : string := String LF "".

Definition schema_bytes : string :=
  "columns:" ++ NL ++ "  a: int64" ++ NL ++ "  b: int64" ++ NL.

Definition train_bytes : string :=
  "a,b" ++ NL ++ "1,7" ++ NL ++ "2,7" ++ NL.

Definition test_bytes : string :=
  "a,b" ++ NL ++ "1,7" ++ NL ++ "2,7" ++ NL.

Definition shifted_bytes : string :=
  "a,b" ++ NL ++ "5,7" ++ NL ++ "6,7" ++ NL.

Definition ingestion : DataIngestionArtifacts :=
  {| trained_file_path := "artifacts/ingested/train.csv";
     test_file_path := "artifacts/ingested/test.csv" |}.

Definition config : DataValidationConfig :=
  {| cfg_valid_train_file_path := "artifacts/validated/train.csv";
     cfg_valid_test_file_path := "artifacts/validated/test.csv";
     cfg_drift_report_file_path := "artifacts/drift_report/report.yaml" |}.

Definition schema : yaml :=
  YMap [("columns", YMap [("a", YStr "int64"); ("b", YStr "int64")])].

Definition validator : DataValidation :=
  {| data_ingestion_artifact := ingestion;
     data_validation_config := config;
     schema_config := schema |}.

Definition train_table : DataFrame :=
  [("a", [Int 1; Int 2]); ("b", [Int 7; Int 7])].

Definition shifted_table : DataFrame :=
  [("a", [Int 5; Int 6]); ("b", [Int 7; Int 7])].

(** A validator on a schema with no column, one on a document that is
    not a mapping, and a table whose second column is text. *)
Definition bare_validator : DataValidation :=
  {| data_ingestion_artifact := ingestion;
     data_validation_config := config;
     schema_config := YMap [("columns", YMap [])] |}.

Definition null_validator : DataValidation :=
  {| data_ingestion_artifact := ingestion;
     data_validation_config := config;
     schema_config := YNull |}.



(** The train file without its final line break, and a test file that lost
    a column. *)
Definition ragged_bytes : string :=
  "a,b" ++ NL ++ "1,7" ++ NL ++ "2,7".

Definition short_bytes : string :=
  "a" ++ NL ++ "1" ++ NL.

Definition short_table : DataFrame := [("a", [Int 1])].

Definition world_of (train test : string) : world :=
  {| files := <["data_schema/schema.yaml" := schema_bytes]>
              (<["artifacts/ingested/train.csv" := train]>
               (<["artifacts/ingested/test.csv" := test]> ∅));
     trace := [] |}.

End Fixture.

(** * The rest of the repository *)

(** ** setup.py: [get_requirements] *)

(** Text is a sequence of characters with code points below 256, one
    [ascii] per character. *)
Definition char_LF : Ascii.ascii := "010"%char.
Definition char_CR : Ascii.ascii := "013"%char.

(** [ch.isspace()] on those characters: tab to carriage return, the four
    separators 28-31, the space, NEL and the no-break space. *)
Definition isspace (c : Ascii.ascii) : bool :=
  let n := nat_of_ascii c in
  (((9 <=? n) && (n <=? 13)) || ((28 <=? n) && (n <=? 32))
   || (n =? 133) || (n =? 160))%nat.

Definition lstrip (l : list Ascii.ascii) : list Ascii.ascii :=
  drop_while isspace l.

Definition rstrip (l : list Ascii.ascii) : list Ascii.ascii :=
  rev (drop_while isspace (rev l)).

(** [s.strip()] *)
Definition str_strip (s : string) : string :=
  string_of_list_ascii (rstrip (lstrip (list_ascii_of_string s))).

(** What a file opened in text mode (["r"], [newline=None]) hands over:
    the text with each of CR LF and CR turned into LF. *)
Fixpoint universal_newlines (s : string) : string :=
  match s with
  | EmptyString => EmptyString
  | String c s' =>
      if Ascii.eqb c char_CR then
        match s' with
        | String c' s'' =>
            if Ascii.eqb c' char_LF then String char_LF (universal_newlines s'')
            else String char_LF (universal_newlines s')
        | EmptyString => String char_LF EmptyString
        end
      else String c (universal_newlines s')
  end.

(** [file.readlines()] on that text: the lines, each with its line break;
    the last one has none when the text does not end with one. *)
Fixpoint readlines (s : string) : list string :=
  match s with
  | EmptyString => []
  | String c s' =>
      if Ascii.eqb c char_LF then String c EmptyString :: readlines s'
      else match readlines s' with
           | [] => [String c EmptyString]
           | line :: lines => String c line :: lines
           end
  end.

(** What [open("requirements.txt", "r")] and the read meet: an exception,
    or the file's content. *)
Inductive open_result : Type :=
| Raised (e : exn)
| Opened (content : string).

(** [except FileNotFoundError] (line 27) takes the exceptions of that
    class, which has no subclass. *)
Definition is_FileNotFoundError (e : exn) : bool :=
  match e with
  | PyExc cls _ => String.eqb cls "FileNotFoundError"
  | NetworkSecurityException _ _ => false
  end.

(** Lines 22-26: the loop, on the list built so far. *)
Fixpoint requirements_loop (lines : list string) (requirement_lst : list string)
  : list string :=
  match lines with
  | [] => requirement_lst
  | line :: rest =>
      let requirement := str_strip line in
      if negb (String.eqb requirement "") && negb (String.eqb requirement "-e .")
      then requirements_loop rest (requirement_lst ++ [requirement])%list
      else requirements_loop rest requirement_lst
  end.

(** The value returned or the exception that escapes, and what was
    printed. *)
Definition get_requirements (requirements_txt : open_result)
  : (exn + list string) * list string :=
  let requirement_lst : list string := [] in
  match requirements_txt with
  | Opened content =>
      let lines := readlines (universal_newlines content) in
      (inr (requirements_loop lines requirement_lst), [])
  | Raised e =>
      if is_FileNotFoundError e
      then (inr requirement_lst, ["requirements.txt file not found."])
      else (inl e, [])
  end.

(** A requirements file with one entry per line. *)
Definition one_per_line (entries : list string) : string :=
  String.concat "" (map (fun entry => entry ++ String char_LF "") entries).

(** The same text with Windows line ends. *)
Fixpoint to_crlf (s : string) : string :=
  match s with
  | EmptyString => EmptyString
  | String c s' =>
      if Ascii.eqb c char_LF then String char_CR (String char_LF (to_crlf s'))
      else String c (to_crlf s')
  end.

(** ** exception.py: [__str__] *)

(** [str(e)]: the f-string of line 13 for a [NetworkSecurityException],
    given the file its handlers sit in; for an exception of another class,
    what that class makes of its message ([builtin_str]). *)
Fixpoint __str__ (filename : string) (builtin_str : string -> string -> string)
    (e : exn) : string :=
  match e with
  | PyExc cls msg => builtin_str cls msg
  | NetworkSecurityException error_message lineno =>
      "Error occurred in script: " ++ filename
      ++ " at line number: " ++ pretty lineno
      ++ " with message: " ++ __str__ filename builtin_str error_message
  end.

(** The exception at the bottom of the wrappers. *)
Fixpoint root_cause (e : exn) : exn :=
  match e with
  | PyExc _ _ => e
  | NetworkSecurityException inner _ => root_cause inner
  end.

(** The lines the wrappers recorded, outermost first. *)
Fixpoint wrapper_lines (e : exn) : list nat :=
  match e with
  | PyExc _ _ => []
  | NetworkSecurityException inner lineno => lineno :: wrapper_lines inner
  end.

(** What line 13 prints before the wrapped message. *)
Definition sentence (filename : string) (lineno : nat) : string :=
  "Error occurred in script: " ++ filename
  ++ " at line number: " ++ pretty lineno
  ++ " with message: ".

(** The statements of [initiate_data_validation]'s [try] block: lines 97 to
    118 of data_validation.py without the blank and comment lines. *)
Definition orchestrator_line (n : nat) : bool :=
  existsb (Nat.eqb n)
    [97; 98; 101; 102; 103; 104; 107; 108; 109; 110; 113; 116; 117; 118].

(** The four [raise Exception(...)] of the orchestrator, and its three
    requests to the file system, each with its line. *)
Definition structural_errors : list (nat * string) :=
  [(102, "Number of columns do not match schema for training data.");
   (104, "Number of columns do not match schema for testing data.");
   (108, "Required columns missing in training data.");
   (110, "Required columns missing in testing data.")].

Definition output_steps (self : DataValidation) : list (nat * fs_op) :=
  let config := data_validation_config self in
  [(116, Makedirs (dirname (cfg_valid_train_file_path config)));
   (117, OpenWrite (cfg_valid_train_file_path config));
   (118, OpenWrite (cfg_valid_test_file_path config))].

(** ** utils/ml_utils/metrics/classification_metrics.py *)

Record ClassficationMetricArtifact : Type := {
  f1_score : float;
  precision_score : float;
  recall_score : float
}.

(** The three scorers of [sklearn.metrics], on two arrays of labels. *)
Class Sklearn : Type := {
  sklearn_f1_score : list Z -> list Z -> exn + float;
  sklearn_recall_score : list Z -> list Z -> exn + float;
  sklearn_precision_score : list Z -> list Z -> exn + float
}.

Definition get_classification_score `{Sklearn} (y_true y_preds : list Z)
  : M exn ClassficationMetricArtifact :=
  try_except (
    model_f1_score <- at_line 10 (lift (sklearn_f1_score y_true y_preds));;
    model_recall_score <- at_line 11 (lift (sklearn_recall_score y_true y_preds));;
    model_precision_score <-
      at_line 12 (lift (sklearn_precision_score y_true y_preds));;
    let classification_metrics :=
      {| f1_score := model_f1_score;
         precision_score := model_precision_score;
         recall_score := model_recall_score |} in
    ret classification_metrics).


(** ** main.py: the pipeline *)

(** The stages of the pipeline other than the validator
    ([components/data_ingestion.py], [components/data_transformation.py],
    [entity/config_entity.py]): their objects are opaque and a call of theirs
    is any computation on the world. *)
Class Stages : Type := {
  training_pipeline_config : Type;
  data_ingestion_config : Type;
  data_ingestion : Type;
  data_transformation_config : Type;
  data_transformation : Type;
  data_transformation_artifact : Type;
  new_TrainingPipelineConfig : M exn training_pipeline_config;
  new_DataIngestionConfig : training_pipeline_config -> M exn data_ingestion_config;
  new_DataIngestion : data_ingestion_config -> M exn data_ingestion;
  initiate_data_ingestion : data_ingestion -> M exn DataIngestionArtifacts;
  new_DataValidationConfig : training_pipeline_config -> M exn DataValidationConfig;
  new_DataTransformationConfig :
    training_pipeline_config -> M exn data_transformation_config;
  new_DataTransformation :
    DataValidationArtifacts -> data_transformation_config -> M exn data_transformation;
  initiate_data_transformation :
    data_transformation -> M exn data_transformation_artifact
}.

Section Pipeline.

Context `{Collaborators} `{Stages}.

(** What the script itself logs and prints, in order. *)
Inductive output : Type :=
| Logged (msg : string)
| PrintedIngestion (artifact : DataIngestionArtifacts)
| PrintedValidation (artifact : DataValidationArtifacts)
| PrintedTransformation (artifact : data_transformation_artifact).

(** The world, and the script's own output beside it. *)
Record process : Type := {
  outside : world;
  console : list output
}.

Definition P (E A : Type) : Type := process -> (E + A) * process.

Definition pret {E A} (a : A) : P E A := fun p => (inr a, p).

Definition pbind {E A B} (m : P E A) (k : A -> P E B) : P E B :=
  fun p =>
    match m p with
    | (inl e, p') => (inl e, p')
    | (inr a, p') => k a p'
    end.

(** [logging.info(msg)] and [print(artifact)] of the script. *)
Definition say {E} (o : output) : P E unit :=
  fun p => (inr tt, {| outside := outside p; console := console p ++ [o] |}).

(** A call at line [n] of the script into a component. *)
Definition stage {A} (n : nat) (m : M exn A) : P located A :=
  fun p =>
    match m (outside p) with
    | (inl e, w') => (inl (e, n), {| outside := w'; console := console p |})
    | (inr a, w') => (inr a, {| outside := w'; console := console p |})
    end.

(** Lines 11 and 40-41. *)
Definition main_try {A} (body : P located A) : P exn A :=
  fun p =>
    match body p with
    | (inl (e, n), p') => (inl (NetworkSecurityException e n), p')
    | (inr a, p') => (inr a, p')
    end.

Declare Scope pipe_scope.
Delimit Scope pipe_scope with pipe.
Notation "x <- m ;; k" := (pbind m (fun x => k))
  (at level 100, m at next level, right associativity) : pipe_scope.
Notation "m ;; k" := (pbind m (fun _ => k))
  (at level 100, right associativity) : pipe_scope.

(** The body of [if __name__ == "__main__":].  The call of lines 24-27 is
    attributed to its first line. *)
Definition main : P exn unit :=
  main_try (
    say (Logged "Initializing Training Pipeline Configuration");;
    training_pipeline_config <- stage 13 new_TrainingPipelineConfig;;
    data_ingestion_config <-
      stage 15 (new_DataIngestionConfig training_pipeline_config);;
    data_ingestion <- stage 16 (new_DataIngestion data_ingestion_config);;
    say (Logged "Initiating Data Ingestion...");;
    data_ingestion_artifact <- stage 18 (initiate_data_ingestion data_ingestion);;
    say (Logged "Data Ingestion Completed Successfully.");;
    say (PrintedIngestion data_ingestion_artifact);;
    data_validation_config <-
      stage 23 (new_DataValidationConfig training_pipeline_config);;
    data_validation <-
      stage 24 (__init__ data_ingestion_artifact data_validation_config);;
    say (Logged "Initiating Data Validation...");;
    data_validation_artifact <-
      stage 29 (initiate_data_validation data_validation);;
    say (Logged "Data Validation Completed Successfully.");;
    say (PrintedValidation data_validation_artifact);;
    data_transformation_config <-
      stage 34 (new_DataTransformationConfig training_pipeline_config);;
    data_transformation <-
      stage 35 (new_DataTransformation data_validation_artifact
                  data_transformation_config);;
    say (Logged "Initiating Data Transformation");;
    data_transformation_artifact <-
      stage 37 (initiate_data_transformation data_transformation);;
    say (Logged "Data Transformation Completed");;
    say (PrintedTransformation data_transformation_artifact);;
    pret tt)%pipe.

(** The script up to the validator: the stages of lines 13-24 return, from
    world [w] to world [w'], the ingestion artifact and the validator. *)
Definition reaches_validation (w : world)
    (tpc : training_pipeline_config)
    (ingested : DataIngestionArtifacts) (self : DataValidation) (w' : world)
  : Prop :=
  exists w1 dic w2 di w3 w4 dvc w5,
    new_TrainingPipelineConfig w = (inr tpc, w1)
    /\ new_DataIngestionConfig tpc w1 = (inr dic, w2)
    /\ new_DataIngestion dic w2 = (inr di, w3)
    /\ initiate_data_ingestion di w3 = (inr ingested, w4)
    /\ new_DataValidationConfig tpc w4 = (inr dvc, w5)
    /\ __init__ ingested dvc w5 = (inr self, w').

(** What the script has said when the validator starts. *)
Definition said_before_validation (ingested : DataIngestionArtifacts)
  : list output :=
  [Logged "Initializing Training Pipeline Configuration";
   Logged "Initiating Data Ingestion...";
   Logged "Data Ingestion Completed Successfully.";
   PrintedIngestion ingested;
   Logged "Initiating Data Validation..."].

End Pipeline.


(** ** More of the small environment *)
Module Samples.

(** A validator whose schema lists its columns as a sequence. *)
Definition sequence_validator : DataValidation :=
  {| data_ingestion_artifact := Fixture.ingestion;
     data_validation_config := Fixture.config;
     schema_config :=
       YMap [("columns", YSeq [YMap [("a", YStr "int64")];
                               YMap [("b", YStr "int64")]])] |}.

(** Configurations whose report, or whose test copy, the system refuses. *)
Definition refused_report_validator : DataValidation :=
  {| data_ingestion_artifact := Fixture.ingestion;
     data_validation_config :=
       {| cfg_valid_train_file_path := "artifacts/validated/train.csv";
          cfg_valid_test_file_path := "artifacts/validated/test.csv";
          cfg_drift_report_file_path := "/proc/report.yaml" |};
     schema_config := Fixture.schema |}.

Definition refused_copy_validator : DataValidation :=
  {| data_ingestion_artifact := Fixture.ingestion;
     data_validation_config :=
       {| cfg_valid_train_file_path := "artifacts/validated/train.csv";
          cfg_valid_test_file_path := "/proc/test.csv";
          cfg_drift_report_file_path := "artifacts/drift_report/report.yaml" |};
     schema_config := Fixture.schema |}.

Definition extra_column : DataFrame := [("c", [Int 0; Int 9])].

Definition requirements_text : string :=
  "pandas" ++ Fixture.NL ++ "  numpy " ++ Fixture.NL ++ Fixture.NL
  ++ "-e ." ++ Fixture.NL ++ "scipy".

(** Stages that do nothing but hand over the fixture's artifacts. *)
#[export] Instance stages : Stages := {|
  training_pipeline_config := unit;
  data_ingestion_config := unit;
  data_ingestion := unit;
  data_transformation_config := unit;
  data_transformation := DataValidationArtifacts;
  data_transformation_artifact := bool;
  new_TrainingPipelineConfig := ret tt;
  new_DataIngestionConfig := fun _ => ret tt;
  new_DataIngestion := fun _ => ret tt;
  initiate_data_ingestion := fun _ => ret Fixture.ingestion;
  new_DataValidationConfig := fun _ => ret Fixture.config;
  new_DataTransformationConfig := fun _ => ret tt;
  new_DataTransformation := fun artifact _ => ret artifact;
  initiate_data_transformation := fun artifact => ret (validation_status artifact)
|}.

End Samples.

(** ** Missing values

    pandas reads an empty CSV cell as NaN, and [ks_2samp] runs with
    [nan_policy='propagate'], its default: a sample that holds a NaN gives
    a NaN statistic and a NaN p-value, returned, not raised.  The stand-in
    below answers so, and as the fixture's on samples without NaN. *)
Module Propagating.

Definition has_nan (d : selection) : bool :=
  match d with
  | Series values =>
      existsb (fun c => match c with
                        | Float x => PrimFloat.is_nan x
                        | _ => false
                        end) values
  | SubFrame _ => false
  end.

Definition ks (d1 d2 : selection) : exn + float :=
  if has_nan d1 || has_nan d2 then inr nan else Fixture.ks d1 d2.

Definition nan_env : Collaborators := {|
  SCHEMA_FILE_PATH := "data_schema/schema.yaml";
  yaml_load := Fixture.load;
  yaml_dump := Fixture.dump;
  csv_parse := Fixture.parse;
  csv_render := Fixture.render;
  ks_2samp := ks;
  os_error := Fixture.os
|}.

(** A train file whose second row has no value for ["a"]. *)
Definition gap_bytes : string :=
  "a,b" ++ Fixture.NL ++ "1,7" ++ Fixture.NL ++ ",7" ++ Fixture.NL.

Definition gap_table : DataFrame :=
  [("a", [Int 1; Float nan]); ("b", [Int 7; Int 7])].

End Propagating.


(** * Properties *)

Section Properties.

Context `{Collaborators}.

(** ** Reading a run backwards *)

Lemma bind_inr {E A B} (m : M E A) (k : A -> M E B) w b w' :
  bind m k w = (inr b, w') ->
  exists a w1, m w = (inr a, w1) /\ k a w1 = (inr b, w').
Proof.
  unfold bind. destruct (m w) as [[e|a] w1]; [discriminate|]. eauto.
Qed.


Lemma at_line_inr {A} n (m : M exn A) w a w' :
  at_line n m w = (inr a, w') -> m w = (inr a, w').
Proof.
  unfold at_line. destruct (m w) as [[e|a0] w1]; congruence.
Qed.

Lemma at_line_inl {A} n (m : M exn A) w e l w' :
  at_line n m w = (inl (e, l), w') -> l = n /\ m w = (inl e, w').
Proof.
  unfold at_line. destruct (m w) as [[e0|a0] w1]; intros [= <- <- <-]; auto.
Qed.

Lemma try_except_inr {A} (body : M located A) w a w' :
  try_except body w = (inr a, w') -> body w = (inr a, w').
Proof.
  unfold try_except. destruct (body w) as [[[e n]|a0] w1]; congruence.
Qed.

Lemma try_except_inl {A} (body : M located A) w e w' :
  try_except body w = (inl e, w') ->
  exists e0 n, e = NetworkSecurityException e0 n /\ body w = (inl (e0, n), w').
Proof.
  unfold try_except. destruct (body w) as [[[e0 n]|a0] w1]; intros [= <- <-]; eauto.
Qed.


(** ** The methods in direct style *)

Lemma read_data_eq file_path w :
  read_data file_path w =
  (match files w !! file_path with
   | None => inl (NetworkSecurityException (PyExc "FileNotFoundError" file_path) 29)
   | Some bytes =>
       match csv_parse bytes with
       | inl e => inl (NetworkSecurityException e 29)
       | inr df => inr df
       end
   end, emit (EvReadCsv file_path) w).
Proof.
  unfold read_data, try_except, at_line, pd_read_csv, bind, tell. simpl.
  destruct (files w !! file_path) as [bytes|]; [|reflexivity].
  destruct (csv_parse bytes); reflexivity.
Qed.

Lemma validate_number_of_columns_eq self dataframe w :
  validate_number_of_columns self dataframe w =
  match schema_len self with
  | inl e => (inl (NetworkSecurityException e 36), w)
  | inr k =>
      (inr (Nat.eqb (shape1 dataframe) k),
       emit (EvLog (LogDataFrameColumns (shape1 dataframe)))
         (emit (EvLog (LogRequiredNumber k)) w))
  end.
Proof.
  unfold validate_number_of_columns, try_except, at_line, bind, lift,
    logging_info, tell, ret.
  destruct (schema_len self); reflexivity.
Qed.

Lemma validate_required_columns_eq self dataframe w :
  validate_required_columns self dataframe w =
  match schema_keys self with
  | inl e => (inl (NetworkSecurityException e 49), w)
  | inr required =>
      match missing_of required (columns dataframe) with
      | [] => (inr true, w)
      | missing => (inr false, emit (EvLog (LogMissingColumns missing)) w)
      end
  end.
Proof.
  unfold validate_required_columns, try_except, at_line, bind, lift,
    logging_info, tell, ret.
  destruct (schema_keys self) as [e|required]; [reflexivity|].
  destruct (missing_of required (columns dataframe)); reflexivity.
Qed.

Lemma label_in_spec col labels : label_in col labels = true <-> col ∈ labels.
Proof.
  unfold label_in. rewrite existsb_exists. split.
  - intros (x & Hx & ->%String.eqb_eq). by apply list_elem_of_In.
  - intros Hin. exists col. split; [by apply list_elem_of_In|apply String.eqb_refl].
Qed.

Lemma elem_of_missing_of col required present :
  col ∈ missing_of required present <-> col ∈ required /\ col ∉ present.
Proof.
  unfold missing_of. rewrite list_elem_of_In, filter_In, <- list_elem_of_In.
  rewrite negb_true_iff, <- not_true_iff_false, label_in_spec. tauto.
Qed.

(** ** Structural checks *)

(** C6: against a schema whose column entry has [k] items ([k = 0]
    included), the column-count check returns, and returns [True] exactly
    when the table has [k] columns; any table with as many columns gets the
    same answer, whatever its labels and cells. *)
Theorem validate_number_of_columns_iff self dataframe w cols k :
  yaml_getitem (schema_config self) "columns" = inr cols ->
  yaml_len cols = inr k ->
  exists b,
    fst (validate_number_of_columns self dataframe w) = inr b
    /\ (b = true <-> length (columns dataframe) = k)
    /\ forall other : DataFrame,
         length (columns other) = length (columns dataframe) ->
         fst (validate_number_of_columns self other w) = inr b.
Proof.
  intros Hcols Hlen.
  assert (Hk : schema_len self = inr k).
  { unfold schema_len. by rewrite Hcols. }
  exists (Nat.eqb (shape1 dataframe) k).
  rewrite validate_number_of_columns_eq, Hk. simpl.
  split; [reflexivity|]. split.
  - unfold columns, shape1. rewrite length_map. apply Nat.eqb_eq.
  - intros other Hother. rewrite validate_number_of_columns_eq, Hk. simpl.
    unfold columns, shape1 in *. rewrite !length_map in Hother.
    by rewrite Hother.
Qed.

(** C5: against a schema whose column entry is a mapping, the
    required-columns check returns, and returns [True] exactly when every
    declared name is a label of the table (as sets: order and extra labels
    do not matter).  On [True] nothing is logged; on [False] exactly one
    record is logged, and the names it lists are, as a set, the declared
    names minus the table's labels. *)
Theorem validate_required_columns_iff self dataframe w entries :
  yaml_getitem (schema_config self) "columns" = inr (YMap entries) ->
  exists b w',
    validate_required_columns self dataframe w = (inr b, w')
    /\ (b = true <->
        (list_to_set (map fst entries) : gset string)
          ⊆ list_to_set (columns dataframe))
    /\ (b = true -> w' = w)
    /\ (b = false ->
        exists missing,
          w' = emit (EvLog (LogMissingColumns missing)) w
          /\ (list_to_set missing : gset string)
             = list_to_set (map fst entries) ∖ list_to_set (columns dataframe)).
Proof.
  intros Hcols.
  assert (Hkeys : schema_keys self = inr (map fst entries)).
  { unfold schema_keys. by rewrite Hcols. }
  rewrite validate_required_columns_eq, Hkeys.
  assert (Hset : (list_to_set (missing_of (map fst entries) (columns dataframe))
                  : gset string)
                 = list_to_set (map fst entries) ∖ list_to_set (columns dataframe)).
  { apply set_eq. intros col.
    rewrite elem_of_difference, !elem_of_list_to_set.
    apply elem_of_missing_of. }
  destruct (missing_of (map fst entries) (columns dataframe)) as [|m ms] eqn:Hmiss.
  - exists true, w. split; [reflexivity|]. split; [|split; [done|discriminate]].
    split; [|done]. intros _ col Hcol.
    destruct (decide (col ∈ (list_to_set (columns dataframe) : gset string)))
      as [|Hno]; [done|].
    assert (Hin : col ∈ (list_to_set [] : gset string)).
    { rewrite Hset. by apply elem_of_difference. }
    by apply not_elem_of_empty in Hin.
  - exists false, (emit (EvLog (LogMissingColumns (m :: ms))) w).
    split; [reflexivity|]. split; [|split; [discriminate|]].
    + split; [discriminate|]. intros Hsub. exfalso.
      assert (Hin : m ∈ (list_to_set (m :: ms) : gset string)).
      { apply elem_of_list_to_set. left. }
      rewrite Hset in Hin. apply elem_of_difference in Hin as [Hm Hno].
      apply Hno, Hsub, Hm.
    + intros _. by exists (m :: ms).
Qed.

(** ** The drift loop *)

Lemma getitem_elem (df : DataFrame) label :
  label ∈ columns df -> exists d, getitem df label = inr d.
Proof.
  intros Hin. unfold getitem.
  destruct (List.filter _ df) as [|col [|col' cols]] eqn:Hf; eauto.
  exfalso. unfold columns in Hin.
  apply list_elem_of_In, in_map_iff in Hin as (col & <- & Hcol).
  assert (Hmem : In col (List.filter (fun c => String.eqb (fst c) (fst col)) df)).
  { apply filter_In. split; [done|apply String.eqb_refl]. }
  rewrite Hf in Hmem. destruct Hmem.
Qed.

Lemma test_column_eq base_df current_df threshold column w :
  test_column base_df current_df threshold column w =
  match getitem base_df column with
  | inl e => (inl (e, 67), w)
  | inr d1 =>
      match getitem current_df column with
      | inl e => (inl (e, 68), w)
      | inr d2 =>
          (match ks_2samp d1 d2 with
           | inl e => inl (e, 70)
           | inr p => inr {| p_value := p;
                             drift_status := (p <? threshold)%float |}
           end, emit (EvKs2samp d1 d2) w)
      end
  end.
Proof.
  unfold test_column, bind, at_line, lift, call_ks_2samp, tell, ret. simpl.
  destruct (getitem base_df column) as [e|d1]; [reflexivity|].
  destruct (getitem current_df column) as [e|d2]; [reflexivity|].
  destruct (ks_2samp d1 d2); reflexivity.
Qed.

Lemma test_column_inr base_df current_df threshold column w entry w' :
  test_column base_df current_df threshold column w = (inr entry, w') ->
  entry_of base_df current_df threshold column entry
  /\ exists d1 d2, w' = emit (EvKs2samp d1 d2) w.
Proof.
  rewrite test_column_eq. unfold entry_of.
  destruct (getitem base_df column) as [e|d1]; [discriminate|].
  destruct (getitem current_df column) as [e|d2]; [discriminate|].
  destruct (ks_2samp d1 d2) as [e|p] eqn:Hks; intros [= <- <-].
  split; [|by eauto]. exists d1, d2. by rewrite Hks.
Qed.

Lemma test_column_testable base_df current_df threshold column w :
  testable base_df current_df column ->
  exists entry d1 d2,
    test_column base_df current_df threshold column w
    = (inr entry, emit (EvKs2samp d1 d2) w).
Proof.
  intros (d1 & d2 & p & H1 & H2 & Hks).
  rewrite test_column_eq, H1, H2, Hks. eauto.
Qed.

(** The loop only tests: it leaves the files alone and the trail grows by
    KS calls, whether it ends or raises. *)
Lemma for_columns_frame base_df current_df threshold cols :
  forall status rep w,
    let out := for_columns base_df current_df threshold cols status rep w in
    files (snd out) = files w
    /\ exists evs, trace (snd out) = (trace w ++ evs)%list
                   /\ forallb is_ks_event evs = true.
Proof.
  induction cols as [|column rest IH]; intros status rep w; simpl.
  - split; [done|]. exists []. by rewrite app_nil_r.
  - unfold bind. rewrite test_column_eq.
    destruct (getitem base_df column) as [e|d1];
      [split; [done|]; exists []; by rewrite app_nil_r|].
    destruct (getitem current_df column) as [e|d2];
      [split; [done|]; exists []; by rewrite app_nil_r|].
    destruct (ks_2samp d1 d2) as [e|p].
    + simpl. split; [done|]. by exists [EvKs2samp d1 d2].
    + match goal with
      | |- context [for_columns _ _ _ rest ?s ?r ?v] =>
          destruct (IH s r v) as (Hfiles & evs & Htrace & Hks)
      end.
      simpl in *. split; [done|].
      exists (EvKs2samp d1 d2 :: evs). rewrite Htrace, <- app_assoc. done.
Qed.

Lemma for_columns_app base_df current_df threshold pre rest :
  forall status rep w,
    for_columns base_df current_df threshold (pre ++ rest) status rep w =
    match for_columns base_df current_df threshold pre status rep w with
    | (inl e, w1) => (inl e, w1)
    | (inr (status1, rep1), w1) =>
        for_columns base_df current_df threshold rest status1 rep1 w1
    end.
Proof.
  induction pre as [|column pre IH]; intros status rep w; simpl; [done|].
  unfold bind.
  destruct (test_column base_df current_df threshold column w) as [[e|entry] w1];
    [done|].
  apply IH.
Qed.

(** Where the KS test answers on every column, the loop ends. *)
Lemma for_columns_total base_df current_df threshold cols :
  Forall (testable base_df current_df) cols ->
  forall status rep w,
  exists out w',
    for_columns base_df current_df threshold cols status rep w = (inr out, w').
Proof.
  induction 1 as [|column rest Hc _ IH]; intros status rep w; simpl.
  - by eexists _, _.
  - unfold bind.
    destruct (test_column_testable base_df current_df threshold column w Hc)
      as (entry & d1 & d2 & ->).
    apply IH.
Qed.

(** *** The report as a dictionary *)

Lemma dict_set_fresh {A} (d : list (string * A)) k v :
  k ∉ map fst d -> dict_set d k v = (d ++ [(k, v)])%list.
Proof.
  induction d as [|[k' v'] d IH]; simpl; intros Hk; [done|].
  destruct (String.eqb_spec k' k) as [->|Hne].
  - exfalso. apply Hk. left.
  - rewrite IH; [done|]. intros Hin. apply Hk. by right.
Qed.

Lemma dict_set_same {A} (d : list (string * A)) k v :
  NoDup (map fst d) -> (k, v) ∈ d -> dict_set d k v = d.
Proof.
  induction d as [|[k' v'] d IH]; simpl; intros Hnd Hin.
  - by apply not_elem_of_nil in Hin.
  - apply NoDup_cons in Hnd as [Hk' Hnd].
    apply elem_of_cons in Hin as [[= <- <-]|Hin].
    + by rewrite String.eqb_refl.
    + destruct (String.eqb_spec k' k) as [->|Hne].
      * exfalso. apply Hk'. apply list_elem_of_fmap. by exists (k, v).
      * by rewrite IH.
Qed.

Lemma entry_of_inj base_df current_df threshold column e1 e2 :
  entry_of base_df current_df threshold column e1 ->
  entry_of base_df current_df threshold column e2 ->
  e1 = e2.
Proof.
  intros (d1 & d2 & Hb & Hc & Hks & Hst) (d1' & d2' & Hb' & Hc' & Hks' & Hst').
  rewrite Hb in Hb'. rewrite Hc in Hc'. simplify_eq.
  rewrite Hks in Hks'. destruct e1 as [p1 s1], e2 as [p2 s2]. simpl in *.
  by simplify_eq.
Qed.

Lemma any_drift_elem rep column entry :
  (column, entry) ∈ rep -> drift_status entry = true -> any_drift rep = true.
Proof.
  intros Hin Hd. unfold any_drift. apply existsb_exists.
  exists (column, entry). split; [by apply list_elem_of_In|done].
Qed.

Lemma report_ok_nil base_df current_df threshold :
  report_ok base_df current_df threshold true [].
Proof. split; [constructor|]. split; [constructor|reflexivity]. Qed.

Lemma report_ok_step base_df current_df threshold status rep column entry :
  report_ok base_df current_df threshold status rep ->
  entry_of base_df current_df threshold column entry ->
  report_ok base_df current_df threshold
    (if drift_status entry then false else status) (dict_set rep column entry)
  /\ forall x, x ∈ map fst (dict_set rep column entry)
               <-> x ∈ map fst rep \/ x = column.
Proof.
  intros (Hnd & Hall & Hst) Hentry.
  destruct (decide (column ∈ map fst rep)) as [Hin|Hfresh].
  - apply list_elem_of_fmap in Hin as ([c e0] & Hc & Hin). simpl in Hc. subst c.
    assert (e0 = entry) as ->.
    { eapply entry_of_inj; [|exact Hentry].
      rewrite Forall_forall in Hall. apply (Hall (column, e0)), Hin. }
    rewrite dict_set_same by done. split.
    + split; [done|]. split; [done|].
      destruct (drift_status entry) eqn:Hd; [|done].
      by rewrite (any_drift_elem rep column entry).
    + intros x. split; [by left|]. intros [Hx| ->]; [done|].
      apply list_elem_of_fmap. by exists (column, entry).
  - rewrite dict_set_fresh by done. split.
    + split; [|split].
      * rewrite map_app. apply NoDup_app. split; [done|].
        split; [|apply NoDup_singleton].
        intros x Hx [= ->]%list_elem_of_singleton. by apply Hfresh.
      * apply Forall_app. split; [done|]. by constructor.
      * unfold any_drift in *. rewrite existsb_app. simpl.
        rewrite Hst. by destruct (existsb _ rep), (drift_status entry).
    + intros x. rewrite map_app, elem_of_app. simpl.
      by rewrite list_elem_of_singleton.
Qed.

(** A loop that ends keeps the invariant, and the labels of its report are
    those it started with and those it went through. *)
Lemma for_columns_inr base_df current_df threshold cols :
  forall status rep w status' rep' w',
    for_columns base_df current_df threshold cols status rep w
    = (inr (status', rep'), w') ->
    report_ok base_df current_df threshold status rep ->
    report_ok base_df current_df threshold status' rep'
    /\ forall x, x ∈ map fst rep' <-> x ∈ map fst rep \/ x ∈ cols.
Proof.
  induction cols as [|column rest IH]; simpl; intros status rep w status' rep' w'.
  - intros [= <- <- <-] Hok. split; [done|]. intros x. split; [by left|].
    intros [Hx|Hx]; [done|]. by apply not_elem_of_nil in Hx.
  - intros (entry & w1 & Hentry & Hrest)%bind_inr Hok.
    apply test_column_inr in Hentry as [Hentry _].
    destruct (report_ok_step _ _ _ _ _ _ _ Hok Hentry) as [Hok1 Hkeys1].
    destruct (IH _ _ _ _ _ _ Hrest Hok1) as [Hok' Hkeys'].
    split; [done|]. intros x. rewrite Hkeys', Hkeys1, elem_of_cons. tauto.
Qed.

(** With distinct labels, none of them in the report yet, the loop appends
    one entry per label, in the order it goes through them. *)
Lemma for_columns_keys base_df current_df threshold cols :
  forall status rep w status' rep' w',
    for_columns base_df current_df threshold cols status rep w
    = (inr (status', rep'), w') ->
    NoDup cols ->
    (forall x, x ∈ cols -> x ∉ map fst rep) ->
    map fst rep' = (map fst rep ++ cols)%list.
Proof.
  induction cols as [|column rest IH]; simpl; intros status rep w status' rep' w'.
  - intros [= <- <- <-] _ _. by rewrite app_nil_r.
  - intros (entry & w1 & Hentry & Hrest)%bind_inr [Hc Hnd]%NoDup_cons Hfresh.
    assert (Hset : dict_set rep column entry = (rep ++ [(column, entry)])%list).
    { apply dict_set_fresh, Hfresh. left. }
    rewrite Hset in Hrest.
    rewrite (IH _ _ _ _ _ _ Hrest Hnd).
    + rewrite map_app, <- app_assoc. done.
    + intros x Hx. rewrite map_app, not_elem_of_app. split.
      * apply Hfresh. by right.
      * simpl. intros ->%list_elem_of_singleton. done.
Qed.

(** ** Drift detection *)

Lemma detect_dataset_drift_eq self base_df current_df threshold w :
  let path := cfg_drift_report_file_path (data_validation_config self) in
  detect_dataset_drift self base_df current_df threshold w =
  match for_columns base_df current_df threshold (columns base_df) true [] w with
  | (inl (e, n), w1) => (inl (NetworkSecurityException e n), w1)
  | (inr (status, rep), w1) =>
      let w2 := emit (EvMakedirs (dirname path)) w1 in
      match os_error (Makedirs (dirname path)) with
      | Some e => (inl (NetworkSecurityException e 83), w2)
      | None =>
          let w3 := emit (EvWriteYaml path rep) w2 in
          match os_error (OpenWrite path) with
          | Some e => (inl (NetworkSecurityException e 85), w3)
          | None => (inr status, store path (yaml_dump rep) w3)
          end
      end
  end.
Proof.
  unfold detect_dataset_drift, try_except, bind. simpl.
  destruct (for_columns _ _ _ _ _ _ w) as [[[e n]|[status rep]] w1]; [done|].
  unfold at_line, os_makedirs, write_yaml_file, bind, tell, raise, ret.
  destruct (os_error (Makedirs _)); [done|].
  destruct (os_error (OpenWrite _)); done.
Qed.

(** A run of drift detection that returns has gone through the whole loop
    and written the report it built. *)
Lemma detect_dataset_drift_inr self base_df current_df threshold w status w' :
  detect_dataset_drift self base_df current_df threshold w = (inr status, w') ->
  exists rep w1,
    for_columns base_df current_df threshold (columns base_df) true [] w
    = (inr (status, rep), w1)
    /\ w' = store (cfg_drift_report_file_path (data_validation_config self))
              (yaml_dump rep)
              (emit (EvWriteYaml
                       (cfg_drift_report_file_path (data_validation_config self))
                       rep)
                 (emit (EvMakedirs
                          (dirname (cfg_drift_report_file_path
                                      (data_validation_config self))))
                    w1)).
Proof.
  rewrite detect_dataset_drift_eq. cbv zeta.
  destruct (for_columns _ _ _ _ _ _ w) as [[[e n]|[st rep]] w1]; [discriminate|].
  destruct (os_error (Makedirs _)); [discriminate|].
  destruct (os_error (OpenWrite _)); [discriminate|].
  intros [= <- <-]. by exists rep, w1.
Qed.

(** C1: for two tables with the same column sets, on whose columns the KS
    test answers, and a report path the system lets be written, drift
    detection with threshold [threshold] returns; the report it writes has
    an entry for exactly the labels of the base table; the entry of a label
    holds the p-value of the KS test on the two columns of that label and
    [drift_status = (p_value < threshold)], each column compared with the
    same threshold on its own; the returned status is the negation of "some
    entry has drift_status true", so one drifting column makes it false. *)
Theorem detect_dataset_drift_verdict self base_df current_df threshold w :
  (forall c, c ∈ columns base_df <-> c ∈ columns current_df) ->
  (forall c d1 d2,
      getitem base_df c = inr d1 -> getitem current_df c = inr d2 ->
      exists p, ks_2samp d1 d2 = inr p) ->
  os_error (Makedirs (dirname (cfg_drift_report_file_path
                                 (data_validation_config self)))) = None ->
  os_error (OpenWrite (cfg_drift_report_file_path
                         (data_validation_config self))) = None ->
  exists rep w',
    detect_dataset_drift self base_df current_df threshold w
    = (inr (negb (any_drift rep)), w')
    /\ files w' = <[cfg_drift_report_file_path (data_validation_config self)
                    := yaml_dump rep]> (files w)
    /\ (forall c, c ∈ map fst rep <-> c ∈ columns base_df)
    /\ (forall c entry, (c, entry) ∈ rep ->
          exists d1 d2,
            getitem base_df c = inr d1
            /\ getitem current_df c = inr d2
            /\ ks_2samp d1 d2 = inr (p_value entry)
            /\ drift_status entry = (p_value entry <? threshold)%float)
    /\ (forall c entry, (c, entry) ∈ rep -> drift_status entry = true ->
          negb (any_drift rep) = false).
Proof.
  intros Hsame Hks Hmk Hwr.
  assert (Htest : Forall (testable base_df current_df) (columns base_df)).
  { apply Forall_forall. intros c Hc.
    destruct (getitem_elem base_df c Hc) as [d1 H1].
    destruct (getitem_elem current_df c (proj1 (Hsame c) Hc)) as [d2 H2].
    destruct (Hks c d1 d2 H1 H2) as [p Hp]. by exists d1, d2, p. }
  destruct (for_columns_total _ _ threshold _ Htest true [] w)
    as ([status rep] & w1 & Hloop).
  destruct (for_columns_inr _ _ _ _ _ _ _ _ _ _ Hloop
              (report_ok_nil base_df current_df threshold))
    as ((Hnd & Hall & Hst) & Hkeys).
  destruct (for_columns_frame base_df current_df threshold (columns base_df)
              true [] w) as [Hfiles _].
  rewrite Hloop in Hfiles. simpl in Hfiles.
  eexists rep, _. rewrite detect_dataset_drift_eq. cbv zeta.
  rewrite Hloop, Hmk, Hwr, Hst.
  split; [reflexivity|]. split; [by simpl; rewrite Hfiles|]. split; [|split].
  - intros c. rewrite Hkeys. split; [|by right].
    intros [Hc|Hc]; [|done]. by apply not_elem_of_nil in Hc.
  - intros c entry Hin. rewrite Forall_forall in Hall.
    apply (Hall (c, entry)), Hin.
  - intros c entry Hin Hd. by rewrite (any_drift_elem rep c entry).
Qed.

(** C4 (amended): when drift detection returns on a base table of distinct
    labels, whatever status it returns, the file at the configured report
    path holds the report, whose labels are the base table's labels in their
    order, one entry each.  The p_value of an entry is the float the KS
    routine returned for the two columns of that label, stored as it came:
    nothing checks that it lies in [0,1] (it does whenever the routine's
    values do); drift_status is the boolean [p_value < threshold]. *)
Theorem drift_report_records_ks_values
    self base_df current_df threshold w status w' :
  NoDup (columns base_df) ->
  detect_dataset_drift self base_df current_df threshold w = (inr status, w') ->
  exists rep,
    files w' !! cfg_drift_report_file_path (data_validation_config self)
    = Some (yaml_dump rep)
    /\ map fst rep = columns base_df
    /\ Forall (fun item =>
                 exists d1 d2,
                   getitem base_df (fst item) = inr d1
                   /\ getitem current_df (fst item) = inr d2
                   /\ ks_2samp d1 d2 = inr (p_value (snd item))
                   /\ drift_status (snd item)
                      = (p_value (snd item) <? threshold)%float) rep
    /\ ((forall d1 d2 p, ks_2samp d1 d2 = inr p ->
           ((0 <=? p) && (p <=? 1))%float = true) ->
        Forall (fun item =>
                  ((0 <=? p_value (snd item)) && (p_value (snd item) <=? 1))%float
                  = true) rep)
    /\ status = negb (any_drift rep).
Proof.
  intros Hnd (rep & w1 & Hloop & ->)%detect_dataset_drift_inr.
  exists rep. split; [apply lookup_insert_eq|].
  split.
  { rewrite (for_columns_keys _ _ _ _ _ _ _ _ _ _ Hloop Hnd); [done|].
    intros x _ Hx. by apply not_elem_of_nil in Hx. }
  destruct (for_columns_inr _ _ _ _ _ _ _ _ _ _ Hloop
              (report_ok_nil base_df current_df threshold))
    as ((_ & Hall & Hst) & _).
  split; [exact Hall|]. split; [|done].
  intros Hrange. eapply Forall_impl; [exact Hall|].
  intros [c entry] (d1 & d2 & _ & _ & Hks & _). simpl in *. by eapply Hrange.
Qed.

(** ** The orchestrator in direct style *)

Lemma initiate_data_validation_eq self w :
  let config := data_validation_config self in
  let fail (msg : string) (n : nat) (w' : world)
        : (exn + DataValidationArtifacts) * world :=
    (inl (NetworkSecurityException (PyExc "Exception" msg) n), w') in
  initiate_data_validation self w =
  match read_data (trained_file_path (data_ingestion_artifact self)) w with
  | (inl e, w1) => (inl (NetworkSecurityException e 97), w1)
  | (inr train_df, w1) =>
  match read_data (test_file_path (data_ingestion_artifact self)) w1 with
  | (inl e, w2) => (inl (NetworkSecurityException e 98), w2)
  | (inr test_df, w2) =>
  match validate_number_of_columns self train_df w2 with
  | (inl e, w3) => (inl (NetworkSecurityException e 101), w3)
  | (inr false, w3) =>
      fail "Number of columns do not match schema for training data." 102 w3
  | (inr true, w3) =>
  match validate_number_of_columns self test_df w3 with
  | (inl e, w4) => (inl (NetworkSecurityException e 103), w4)
  | (inr false, w4) =>
      fail "Number of columns do not match schema for testing data." 104 w4
  | (inr true, w4) =>
  match validate_required_columns self train_df w4 with
  | (inl e, w5) => (inl (NetworkSecurityException e 107), w5)
  | (inr false, w5) => fail "Required columns missing in training data." 108 w5
  | (inr true, w5) =>
  match validate_required_columns self test_df w5 with
  | (inl e, w6) => (inl (NetworkSecurityException e 109), w6)
  | (inr false, w6) => fail "Required columns missing in testing data." 110 w6
  | (inr true, w6) =>
  match detect_dataset_drift self train_df test_df threshold_default w6 with
  | (inl e, w7) => (inl (NetworkSecurityException e 113), w7)
  | (inr status, w7) =>
      let w8 := emit (EvMakedirs (dirname (cfg_valid_train_file_path config))) w7 in
      match os_error (Makedirs (dirname (cfg_valid_train_file_path config))) with
      | Some e => (inl (NetworkSecurityException e 116), w8)
      | None =>
      let w9 := emit (EvToCsv (cfg_valid_train_file_path config) train_df) w8 in
      match os_error (OpenWrite (cfg_valid_train_file_path config)) with
      | Some e => (inl (NetworkSecurityException e 117), w9)
      | None =>
      let w10 := emit (EvToCsv (cfg_valid_test_file_path config) test_df)
                   (store (cfg_valid_train_file_path config)
                      (csv_render train_df) w9) in
      match os_error (OpenWrite (cfg_valid_test_file_path config)) with
      | Some e => (inl (NetworkSecurityException e 118), w10)
      | None =>
          let artifact :=
            {| validation_status := status;
               valid_train_file_path := cfg_valid_train_file_path config;
               valid_test_file_path := cfg_valid_test_file_path config;
               invalid_train_file_path := None;
               invalid_test_file_path := None;
               drift_report_file_path := cfg_drift_report_file_path config |} in
          (inr artifact,
           emit (EvLog (LogCompleted artifact))
             (store (cfg_valid_test_file_path config) (csv_render test_df) w10))
      end end end
  end end end end end end end.
Proof.
  cbv zeta.
  unfold initiate_data_validation, try_except, bind, at_line, require.
  destruct (read_data _ w) as [[e|train_df] w1]; [done|].
  destruct (read_data _ w1) as [[e|test_df] w2]; [done|].
  destruct (validate_number_of_columns self train_df w2) as [[e|[]] w3];
    [done| |done].
  cbn beta iota delta [ret].
  destruct (validate_number_of_columns self test_df w3) as [[e|[]] w4];
    [done| |done].
  cbn beta iota delta [ret].
  destruct (validate_required_columns self train_df w4) as [[e|[]] w5];
    [done| |done].
  cbn beta iota delta [ret].
  destruct (validate_required_columns self test_df w5) as [[e|[]] w6];
    [done| |done].
  cbn beta iota delta [ret].
  destruct (detect_dataset_drift self train_df test_df threshold_default w6)
    as [[e|status] w7]; [done|].
  unfold os_makedirs, to_csv, logging_info, bind, tell, raise, ret.
  destruct (os_error (Makedirs _)); [done|].
  destruct (os_error (OpenWrite (cfg_valid_train_file_path _))); [done|].
  destruct (os_error (OpenWrite (cfg_valid_test_file_path _))); done.
Qed.

(** ** Fail-fast ordering *)

Lemma count_check_false self dataframe :
  answers (validate_number_of_columns self dataframe) false ->
  exists k, schema_len self = inr k /\ Nat.eqb (shape1 dataframe) k = false.
Proof.
  intros Hans. specialize (Hans {| files := ∅; trace := [] |}).
  rewrite validate_number_of_columns_eq in Hans.
  destruct (schema_len self) as [e|k]; [discriminate|].
  simpl in Hans. exists k. split; congruence.
Qed.

Lemma required_check_false self dataframe :
  answers (validate_required_columns self dataframe) false ->
  exists keys k,
    schema_keys self = inr keys /\ schema_len self = inr k
    /\ missing_of keys (columns dataframe) <> [].
Proof.
  intros Hans. specialize (Hans {| files := ∅; trace := [] |}).
  rewrite validate_required_columns_eq in Hans.
  unfold schema_keys, schema_len in *.
  destruct (yaml_getitem (schema_config self) "columns") as [e|cols];
    [discriminate|].
  destruct cols; try discriminate. simpl in *.
  destruct (missing_of _ _) eqn:Hm; [discriminate|].
  eexists _, _. split; [reflexivity|]. split; [reflexivity|]. rewrite Hm. done.
Qed.

Lemma schema_keys_len self keys :
  schema_keys self = inr keys -> exists k, schema_len self = inr k.
Proof.
  unfold schema_keys, schema_len.
  destruct (yaml_getitem (schema_config self) "columns") as [e|cols];
    [discriminate|].
  destruct cols; try discriminate. simpl. eauto.
Qed.

Ltac trail :=
  eexists; split;
  [ simpl; rewrite <- ?app_assoc; reflexivity | reflexivity ].

(** C3: when both tables are read and one of them fails the column-count
    check or the required-columns check, the orchestrator raises, wrapped,
    one of the four structural [Exception]s of lines 102-110; no KS test is
    run and no report is written before it: the files are those the run
    started with and the trail shows no event of drift detection. *)
Theorem structural_failure_stops_run self w bytes1 bytes2 train_df test_df :
  files w !! trained_file_path (data_ingestion_artifact self) = Some bytes1 ->
  csv_parse bytes1 = inr train_df ->
  files w !! test_file_path (data_ingestion_artifact self) = Some bytes2 ->
  csv_parse bytes2 = inr test_df ->
  answers (validate_number_of_columns self train_df) false
  \/ answers (validate_number_of_columns self test_df) false
  \/ answers (validate_required_columns self train_df) false
  \/ answers (validate_required_columns self test_df) false ->
  exists msg n w',
    initiate_data_validation self w
    = (inl (NetworkSecurityException (PyExc "Exception" msg) n), w')
    /\ (n = 102 \/ n = 104 \/ n = 108 \/ n = 110)
    /\ files w' = files w
    /\ exists evs,
         trace w' = (trace w ++ evs)%list
         /\ forallb (fun ev => negb (drift_event ev)) evs = true.
Proof.
  intros Hf1 Hp1 Hf2 Hp2 Hfail.
  rewrite initiate_data_validation_eq. cbv zeta.
  rewrite read_data_eq, Hf1, Hp1. rewrite read_data_eq. simpl files.
  rewrite Hf2, Hp2.
  assert (Hlen : exists k, schema_len self = inr k).
  { destruct Hfail as [Hc|[Hc|[Hr|Hr]]].
    - apply count_check_false in Hc as (k & Hk & _). eauto.
    - apply count_check_false in Hc as (k & Hk & _). eauto.
    - apply required_check_false in Hr as (keys & k & _ & Hk & _). eauto.
    - apply required_check_false in Hr as (keys & k & _ & Hk & _). eauto. }
  destruct Hlen as [k Hk].
  rewrite validate_number_of_columns_eq, Hk.
  destruct (Nat.eqb (shape1 train_df) k) eqn:Htrain.
  2:{ eexists _, 102, _. split; [reflexivity|]. split; [tauto|].
      split; [reflexivity|]. trail. }
  rewrite validate_number_of_columns_eq, Hk.
  destruct (Nat.eqb (shape1 test_df) k) eqn:Htest.
  2:{ eexists _, 104, _. split; [reflexivity|]. split; [tauto|].
      split; [reflexivity|]. trail. }
  assert (Hreq : exists keys,
             schema_keys self = inr keys
             /\ (missing_of keys (columns train_df) <> []
                 \/ missing_of keys (columns test_df) <> [])).
  { destruct Hfail as [Hc|[Hc|[Hr|Hr]]].
    - apply count_check_false in Hc as (k' & Hk' & Hne). congruence.
    - apply count_check_false in Hc as (k' & Hk' & Hne). congruence.
    - apply required_check_false in Hr as (keys & _ & Hkeys & _ & Hm). eauto.
    - apply required_check_false in Hr as (keys & _ & Hkeys & _ & Hm). eauto. }
  destruct Hreq as (keys & Hkeys & Hmiss).
  rewrite validate_required_columns_eq, Hkeys.
  destruct (missing_of keys (columns train_df)) as [|m ms] eqn:Hm1.
  2:{ eexists _, 108, _. split; [reflexivity|]. split; [tauto|].
      split; [reflexivity|]. trail. }
  rewrite validate_required_columns_eq, Hkeys.
  destruct (missing_of keys (columns test_df)) as [|m ms] eqn:Hm2.
  { by destruct Hmiss. }
  eexists _, 110, _. split; [reflexivity|]. split; [tauto|].
  split; [reflexivity|]. trail.
Qed.

(** ** Runs that go through *)

Lemma for_columns_world base_df current_df threshold cols :
  forall status rep w w0,
    fst (for_columns base_df current_df threshold cols status rep w)
    = fst (for_columns base_df current_df threshold cols status rep w0).
Proof.
  induction cols as [|column rest IH]; intros status rep w w0; simpl; [done|].
  unfold bind. rewrite !test_column_eq.
  destruct (getitem base_df column) as [e|d1]; [done|].
  destruct (getitem current_df column) as [e|d2]; [done|].
  destruct (ks_2samp d1 d2) as [e|p]; [done|].
  apply IH.
Qed.

(** Forwards: under [passes] the run returns the record, leaves
    [files_after] and adds [trail_of]. *)
Lemma initiate_run self w train_df test_df status rep :
  passes self (files w) train_df test_df status rep ->
  exists ks_events w',
    initiate_data_validation self w = (inr (artifact_of self status), w')
    /\ files w' = files_after self (files w) train_df test_df rep
    /\ trace w' = (trace w ++ trail_of self train_df test_df status rep ks_events)%list
    /\ forallb is_ks_event ks_events = true.
Proof.
  intros [[(b1 & Hf1 & Hp1) (b2 & Hf2 & Hp2) Hk Hshape
              (keys & Hkeys & Hm1 & Hm2)] Hloop Hrd Hr Hvd Hvt Hvs].
  rewrite initiate_data_validation_eq. cbv zeta.
  rewrite read_data_eq, Hf1, Hp1. rewrite read_data_eq. simpl files.
  rewrite Hf2, Hp2.
  rewrite validate_number_of_columns_eq, Hk, Nat.eqb_refl.
  rewrite validate_number_of_columns_eq, Hk, Hshape, Nat.eqb_refl.
  rewrite validate_required_columns_eq, Hkeys, Hm1.
  rewrite validate_required_columns_eq, Hkeys, Hm2.
  rewrite detect_dataset_drift_eq. cbv zeta.
  match goal with
  | |- context [for_columns train_df test_df threshold_default
                  (columns train_df) true [] ?w6] =>
      pose proof (Hloop w6) as Hout;
      destruct (for_columns_frame train_df test_df threshold_default
                  (columns train_df) true [] w6)
        as (Hfiles & ks_events & Htrace & Hks);
      destruct (for_columns train_df test_df threshold_default
                  (columns train_df) true [] w6) as [out w7]
  end.
  simpl in Hout, Hfiles, Htrace. subst out.
  rewrite Hrd, Hr, Hvd, Hvt, Hvs.
  exists ks_events. eexists. split; [reflexivity|].
  split; [by simpl; rewrite Hfiles|].
  split; [|done]. simpl. rewrite Htrace. simpl.
  unfold trail_of. rewrite Hshape. simpl. rewrite <- !app_assoc. simpl.
  reflexivity.
Qed.

(** Backwards: a run that returns went through. *)
Lemma initiate_passes self w artifact w' :
  initiate_data_validation self w = (inr artifact, w') ->
  exists train_df test_df status rep,
    passes self (files w) train_df test_df status rep.
Proof.
  rewrite initiate_data_validation_eq. cbv zeta.
  rewrite read_data_eq.
  destruct (files w !! trained_file_path _) as [b1|] eqn:Hf1; [|discriminate].
  destruct (csv_parse b1) as [e|train_df] eqn:Hp1; [discriminate|].
  rewrite read_data_eq. simpl files.
  destruct (files w !! test_file_path _) as [b2|] eqn:Hf2; [|discriminate].
  destruct (csv_parse b2) as [e|test_df] eqn:Hp2; [discriminate|].
  rewrite validate_number_of_columns_eq.
  destruct (schema_len self) as [e|k] eqn:Hk; [discriminate|].
  destruct (Nat.eqb (shape1 train_df) k) eqn:Htrain; [|discriminate].
  apply Nat.eqb_eq in Htrain. subst k.
  rewrite validate_number_of_columns_eq, Hk.
  destruct (Nat.eqb (shape1 test_df) (shape1 train_df)) eqn:Htest; [|discriminate].
  apply Nat.eqb_eq in Htest.
  rewrite validate_required_columns_eq.
  destruct (schema_keys self) as [e|keys] eqn:Hkeys; [discriminate|].
  destruct (missing_of keys (columns train_df)) eqn:Hm1; [|discriminate].
  rewrite validate_required_columns_eq, Hkeys.
  destruct (missing_of keys (columns test_df)) eqn:Hm2; [|discriminate].
  rewrite detect_dataset_drift_eq. cbv zeta.
  match goal with
  | |- context [for_columns train_df test_df threshold_default
                  (columns train_df) true [] ?w6] =>
      destruct (for_columns train_df test_df threshold_default
                  (columns train_df) true [] w6)
        as [[[e n]|[status rep]] w7] eqn:Hloop; [discriminate|]
  end.
  destruct (os_error (Makedirs (dirname (cfg_drift_report_file_path _))))
    eqn:Hrd; [discriminate|].
  destruct (os_error (OpenWrite (cfg_drift_report_file_path _)))
    eqn:Hr; [discriminate|].
  destruct (os_error (Makedirs (dirname (cfg_valid_train_file_path _))))
    eqn:Hvd; [discriminate|].
  destruct (os_error (OpenWrite (cfg_valid_train_file_path _)))
    eqn:Hvt; [discriminate|].
  destruct (os_error (OpenWrite (cfg_valid_test_file_path _)))
    eqn:Hvs; [discriminate|].
  intros _. exists train_df, test_df, status, rep.
  split; [split; eauto| |done..].
  intros w0. erewrite for_columns_world. by rewrite Hloop.
Qed.

Lemma initiate_inr self w artifact w' :
  initiate_data_validation self w = (inr artifact, w') ->
  exists train_df test_df status rep ks_events,
    passes self (files w) train_df test_df status rep
    /\ artifact = artifact_of self status
    /\ files w' = files_after self (files w) train_df test_df rep
    /\ trace w' = (trace w ++ trail_of self train_df test_df status rep ks_events)%list
    /\ forallb is_ks_event ks_events = true.
Proof.
  intros Hrun.
  destruct (initiate_passes _ _ _ _ Hrun) as (train_df & test_df & status & rep & Hp).
  destruct (initiate_run _ w _ _ _ _ Hp) as (ks_events & w2 & Hrun2 & Hfiles & Htrace & Hks).
  rewrite Hrun in Hrun2. injection Hrun2 as -> ->.
  by exists train_df, test_df, status, rep, ks_events.
Qed.

Lemma ks_events_elem (evs : list event) ev :
  forallb is_ks_event evs = true -> ev ∈ evs -> is_ks_event ev = true.
Proof.
  intros Hall Hin. rewrite forallb_forall in Hall.
  by apply Hall, list_elem_of_In.
Qed.

Lemma files_after_other self fs train_df test_df rep path :
  path <> cfg_drift_report_file_path (data_validation_config self) ->
  path <> cfg_valid_train_file_path (data_validation_config self) ->
  path <> cfg_valid_test_file_path (data_validation_config self) ->
  files_after self fs train_df test_df rep !! path = fs !! path.
Proof.
  intros Hr Ht Hs. unfold files_after. by rewrite !lookup_insert_ne.
Qed.

Lemma files_after_idem self fs train_df test_df rep :
  files_after self (files_after self fs train_df test_df rep) train_df test_df rep
  = files_after self fs train_df test_df rep.
Proof.
  apply map_eq. intros path. unfold files_after.
  rewrite !lookup_insert. repeat case_decide; done.
Qed.

(** ** The outputs of a run *)

(** C8 (amended): after a run that returns, the file at the valid test path
    is [to_csv] of the table parsed from the test input, and, when the two
    valid paths differ, the file at the valid train path is [to_csv] of the
    table parsed from the train input; if the run left its two inputs as
    they were, running again returns the same record and leaves every file
    as the first run left it. *)
Theorem validated_files_are_rendered_tables self w artifact w' :
  initiate_data_validation self w = (inr artifact, w') ->
  exists bytes1 bytes2 train_df test_df,
    files w !! trained_file_path (data_ingestion_artifact self) = Some bytes1
    /\ csv_parse bytes1 = inr train_df
    /\ files w !! test_file_path (data_ingestion_artifact self) = Some bytes2
    /\ csv_parse bytes2 = inr test_df
    /\ files w' !! cfg_valid_test_file_path (data_validation_config self)
       = Some (csv_render test_df)
    /\ (cfg_valid_train_file_path (data_validation_config self)
        <> cfg_valid_test_file_path (data_validation_config self) ->
        files w' !! cfg_valid_train_file_path (data_validation_config self)
        = Some (csv_render train_df))
    /\ (files w' !! trained_file_path (data_ingestion_artifact self)
        = files w !! trained_file_path (data_ingestion_artifact self) ->
        files w' !! test_file_path (data_ingestion_artifact self)
        = files w !! test_file_path (data_ingestion_artifact self) ->
        exists w'',
          initiate_data_validation self w' = (inr artifact, w'')
          /\ files w'' = files w').
Proof.
  intros (train_df & test_df & status & rep & ks_events
          & Hp & -> & Hfiles & _ & _)%initiate_inr.
  pose proof (passes_structure _ _ _ _ _ _ Hp) as Hs.
  destruct (valid_train _ _ _ _ Hs) as (bytes1 & Hf1 & Hp1).
  destruct (valid_test _ _ _ _ Hs) as (bytes2 & Hf2 & Hp2).
  exists bytes1, bytes2, train_df, test_df.
  do 4 (split; [done|]).
  split; [|split].
  - rewrite Hfiles. unfold files_after. apply lookup_insert_eq.
  - intros Hne. rewrite Hfiles. unfold files_after.
    rewrite lookup_insert_ne by done. apply lookup_insert_eq.
  - intros Hsame1 Hsame2.
    assert (Hp' : passes self (files w') train_df test_df status rep).
    { destruct Hp as [[_ _ Hk Hshape Hreq] Hloop Hrd Hr Hvd Hvt Hvs].
      split; [split|..]; try done.
      - exists bytes1. by rewrite Hsame1.
      - exists bytes2. by rewrite Hsame2. }
    destruct (initiate_run _ w' _ _ _ _ Hp')
      as (ks_events' & w'' & Hrun' & Hfiles' & _ & _).
    exists w''. split; [done|].
    by rewrite Hfiles', Hfiles, files_after_idem.
Qed.

(** C9: a run that returns yields the record of lines 121-128, whose two
    invalid paths are [None]; the record is logged once, as the last event
    of the run; the only tables the run writes go to the two valid paths,
    and no file other than the report and the two valid copies changes. *)
Theorem result_record_has_no_invalid_split self w artifact w' :
  initiate_data_validation self w = (inr artifact, w') ->
  invalid_train_file_path artifact = None
  /\ invalid_test_file_path artifact = None
  /\ (exists evs,
        trace w' = (trace w ++ evs ++ [EvLog (LogCompleted artifact)])%list
        /\ (forall a, EvLog (LogCompleted a) ∉ evs)
        /\ (forall path df, EvToCsv path df ∈ evs ->
              path = cfg_valid_train_file_path (data_validation_config self)
              \/ path = cfg_valid_test_file_path (data_validation_config self)))
  /\ (forall path,
        path <> cfg_drift_report_file_path (data_validation_config self) ->
        path <> cfg_valid_train_file_path (data_validation_config self) ->
        path <> cfg_valid_test_file_path (data_validation_config self) ->
        files w' !! path = files w !! path).
Proof.
  intros (train_df & test_df & status & rep & ks_events
          & Hp & -> & Hfiles & Htrace & Hks)%initiate_inr.
  split; [done|]. split; [done|]. split.
  - eexists. split.
    { rewrite Htrace. unfold trail_of. cbv zeta.
      f_equal.
      change (?l ++ ks_events ++ [?a; ?b; ?c; ?d; ?e; ?f])%list
        with (l ++ ks_events ++ [a; b; c; d; e] ++ [f])%list.
      rewrite !app_assoc. reflexivity. }
    split.
    + intros a Hin. rewrite !elem_of_app in Hin.
      destruct Hin as [[Hin|Hin]|Hin].
      * repeat (apply elem_of_cons in Hin as [?|Hin]; [discriminate|]).
        by apply not_elem_of_nil in Hin.
      * by apply (ks_events_elem _ _ Hks) in Hin.
      * repeat (apply elem_of_cons in Hin as [?|Hin]; [discriminate|]).
        by apply not_elem_of_nil in Hin.
    + intros path df Hin. rewrite !elem_of_app in Hin.
      destruct Hin as [[Hin|Hin]|Hin].
      * repeat (apply elem_of_cons in Hin as [?|Hin]; [discriminate|]).
        by apply not_elem_of_nil in Hin.
      * by apply (ks_events_elem _ _ Hks) in Hin.
      * do 3 (apply elem_of_cons in Hin as [?|Hin]; [discriminate|]).
        apply elem_of_cons in Hin as [[= -> _]|Hin]; [by left|].
        apply elem_of_cons in Hin as [[= -> _]|Hin]; [by right|].
        by apply not_elem_of_nil in Hin.
  - intros path Hr Ht Hs. rewrite Hfiles. by apply files_after_other.
Qed.

(** ** Exceptions *)

Lemma read_data_raises file_path w e w' :
  read_data file_path w = (inl e, w') ->
  exists inner n, e = NetworkSecurityException inner n.
Proof. intros (e0 & n & -> & _)%try_except_inl. eauto. Qed.

Lemma validate_number_of_columns_raises self dataframe w e w' :
  validate_number_of_columns self dataframe w = (inl e, w') ->
  exists inner n, e = NetworkSecurityException inner n.
Proof. intros (e0 & n & -> & _)%try_except_inl. eauto. Qed.

Lemma validate_required_columns_raises self dataframe w e w' :
  validate_required_columns self dataframe w = (inl e, w') ->
  exists inner n, e = NetworkSecurityException inner n.
Proof. intros (e0 & n & -> & _)%try_except_inl. eauto. Qed.

Lemma detect_dataset_drift_raises self base_df current_df threshold w e w' :
  detect_dataset_drift self base_df current_df threshold w = (inl e, w') ->
  exists inner n, e = NetworkSecurityException inner n.
Proof. intros (e0 & n & -> & _)%try_except_inl. eauto. Qed.



(** ** Loading the schema *)

Lemma init_eq ingestion config w :
  __init__ ingestion config w =
  (match files w !! SCHEMA_FILE_PATH with
   | None =>
       inl (NetworkSecurityException
              (PyExc "FileNotFoundError" SCHEMA_FILE_PATH) 21)
   | Some bytes =>
       match yaml_load bytes with
       | inl e => inl (NetworkSecurityException e 21)
       | inr doc =>
           match yaml_getitem doc "columns" with
           | inr (YMap (_ :: _)) =>
               inr {| data_ingestion_artifact := ingestion;
                      data_validation_config := config;
                      schema_config := doc |}
           | inr (YMap []) =>
               inl (NetworkSecurityException
                      (PyExc "SchemaLoadError" "schema declares zero columns") 21)
           | _ =>
               inl (NetworkSecurityException
                      (PyExc "SchemaLoadError" "malformed schema") 21)
           end
       end
   end, emit (EvReadYaml SCHEMA_FILE_PATH) w).
Proof.
  unfold __init__, read_yaml_file, try_except, at_line, bind, tell, ret. simpl.
  destruct (files w !! SCHEMA_FILE_PATH) as [bytes|]; [|done].
  destruct (yaml_load bytes) as [e|doc]; [done|].
  destruct (yaml_getitem doc "columns") as [e|[| | | |[|entry entries]]];
    reflexivity.
Qed.

(** C7: constructing the validator on a schema document whose column
    mapping is empty raises (from line 21, the load); whenever the
    constructor returns, the column mapping of the schema it holds has at
    least one entry, so the structural checks never see an empty schema
    loaded this way. *)
Theorem init_rejects_empty_schema ingestion config w :
  (forall bytes doc,
      files w !! SCHEMA_FILE_PATH = Some bytes ->
      yaml_load bytes = inr doc ->
      yaml_getitem doc "columns" = inr (YMap []) ->
      exists e,
        fst (__init__ ingestion config w) = inl (NetworkSecurityException e 21))
  /\ (forall self w',
        __init__ ingestion config w = (inr self, w') ->
        exists entry entries,
          yaml_getitem (schema_config self) "columns"
          = inr (YMap (entry :: entries))
          /\ schema_len self = inr (S (length entries))).
Proof.
  split.
  - intros bytes doc Hfile Hload Hcols.
    rewrite init_eq, Hfile, Hload, Hcols. by eexists.
  - intros self w'. rewrite init_eq.
    destruct (files w !! SCHEMA_FILE_PATH) as [bytes|]; [|discriminate].
    destruct (yaml_load bytes) as [e|doc]; [discriminate|].
    destruct (yaml_getitem doc "columns")
      as [e|[| | | |[|entry entries]]] eqn:Hcols; try discriminate.
    intros [= <- <-]. exists entry, entries. unfold schema_len. simpl.
    by rewrite Hcols.
Qed.

(** ** A KS test that raises *)





End Properties.

(** * More properties of the validator *)

Section More_properties.

Context `{Collaborators}.

(** ** What the two checks establish together *)

Lemma count_check_true self dataframe :
  answers (validate_number_of_columns self dataframe) true ->
  schema_len self = inr (shape1 dataframe).
Proof.
  intros Hans. specialize (Hans {| files := ∅; trace := [] |}).
  rewrite validate_number_of_columns_eq in Hans.
  destruct (schema_len self) as [e|k]; [discriminate|].
  simpl in Hans. injection Hans as Hk. apply Nat.eqb_eq in Hk. by subst k.
Qed.

Lemma required_check_true self dataframe :
  answers (validate_required_columns self dataframe) true ->
  exists keys,
    schema_keys self = inr keys /\ missing_of keys (columns dataframe) = [].
Proof.
  intros Hans. specialize (Hans {| files := ∅; trace := [] |}).
  rewrite validate_required_columns_eq in Hans.
  destruct (schema_keys self) as [e|keys]; [discriminate|].
  destruct (missing_of keys (columns dataframe)) eqn:Hm; [|discriminate].
  by exists keys.
Qed.

Lemma missing_of_nil required present :
  missing_of required present = [] ->
  forall col, col ∈ required -> col ∈ present.
Proof.
  intros Hm col Hcol.
  destruct (decide (col ∈ present)) as [|Hno]; [done|].
  assert (Hin : col ∈ missing_of required present).
  { by apply elem_of_missing_of. }
  rewrite Hm in Hin. by apply not_elem_of_nil in Hin.
Qed.

(** X1: A table of distinct labels that passes the count check and the
    required-columns check of a schema mapping has exactly the declared
    columns: its labels are the schema's names up to order, so it has no
    undeclared column either. *)
Theorem checks_pin_the_column_set self dataframe entries :
  yaml_getitem (schema_config self) "columns" = inr (YMap entries) ->
  NoDup (map fst entries) ->
  NoDup (columns dataframe) ->
  answers (validate_number_of_columns self dataframe) true ->
  answers (validate_required_columns self dataframe) true ->
  columns dataframe ≡ₚ map fst entries.
Proof.
  intros Hcols Hkeys Hlabels Hcount Hreq.
  apply count_check_true in Hcount.
  apply required_check_true in Hreq as (keys & Hk & Hm).
  unfold schema_len, schema_keys in *. rewrite Hcols in *. simpl in *.
  injection Hk as <-. injection Hcount as Hlen.
  symmetry. apply submseteq_length_Permutation.
  - apply NoDup_submseteq; [done|]. by apply missing_of_nil.
  - unfold columns, shape1 in *. rewrite !length_map. lia.
Qed.

(** ** A schema whose columns are a sequence *)

(** X3: When the schema lists its columns as a YAML sequence of [k] items, the
    count check works on it (it only takes [len]) while the required-columns
    check raises [AttributeError] at line 49 ([.keys()] on a list); so a run
    over two readable tables of [k] columns always ends at line 107, with
    that error wrapped twice, and writes nothing. *)
Theorem sequence_schema_fails_at_required_check
    self w items bytes1 bytes2 train_df test_df :
  yaml_getitem (schema_config self) "columns" = inr (YSeq items) ->
  files w !! trained_file_path (data_ingestion_artifact self) = Some bytes1 ->
  csv_parse bytes1 = inr train_df ->
  files w !! test_file_path (data_ingestion_artifact self) = Some bytes2 ->
  csv_parse bytes2 = inr test_df ->
  shape1 train_df = length items ->
  shape1 test_df = length items ->
  answers (validate_number_of_columns self train_df) true
  /\ (forall w0,
        validate_required_columns self train_df w0
        = (inl (NetworkSecurityException
                  (PyExc "AttributeError" "'list' object has no attribute 'keys'")
                  49), w0))
  /\ exists w',
       initiate_data_validation self w
       = (inl (NetworkSecurityException
                 (NetworkSecurityException
                    (PyExc "AttributeError"
                       "'list' object has no attribute 'keys'") 49) 107), w')
       /\ files w' = files w.
Proof.
  intros Hcols Hf1 Hp1 Hf2 Hp2 Hs1 Hs2.
  assert (Hlen : schema_len self = inr (length items)).
  { unfold schema_len. by rewrite Hcols. }
  assert (Hkeys : schema_keys self
                  = inl (PyExc "AttributeError"
                           "'list' object has no attribute 'keys'")).
  { unfold schema_keys. by rewrite Hcols. }
  split; [|split].
  - intros w0. rewrite validate_number_of_columns_eq, Hlen, Hs1. simpl.
    by rewrite Nat.eqb_refl.
  - intros w0. by rewrite validate_required_columns_eq, Hkeys.
  - rewrite initiate_data_validation_eq. cbv zeta.
    rewrite read_data_eq, Hf1, Hp1. rewrite read_data_eq. simpl files.
    rewrite Hf2, Hp2.
    rewrite validate_number_of_columns_eq, Hlen, Hs1, Nat.eqb_refl.
    rewrite validate_number_of_columns_eq, Hlen, Hs2, Nat.eqb_refl.
    rewrite validate_required_columns_eq, Hkeys.
    by eexists.
Qed.

(** ** Which structural error is raised *)

(** X2: With both tables read, a schema of [k] declared names [keys], the four
    structural errors have a fixed priority: the train count (line 102),
    then the test count (104), then the train's missing columns (108), then
    the test's (110).  A wrong count in the test table hides columns missing
    from the train table. *)
Theorem structural_errors_in_order self w bytes1 bytes2 train_df test_df k keys :
  files w !! trained_file_path (data_ingestion_artifact self) = Some bytes1 ->
  csv_parse bytes1 = inr train_df ->
  files w !! test_file_path (data_ingestion_artifact self) = Some bytes2 ->
  csv_parse bytes2 = inr test_df ->
  schema_len self = inr k ->
  schema_keys self = inr keys ->
  (shape1 train_df <> k ->
   fst (initiate_data_validation self w)
   = inl (NetworkSecurityException
            (PyExc "Exception"
               "Number of columns do not match schema for training data.") 102))
  /\ (shape1 train_df = k -> shape1 test_df <> k ->
      fst (initiate_data_validation self w)
      = inl (NetworkSecurityException
               (PyExc "Exception"
                  "Number of columns do not match schema for testing data.") 104))
  /\ (shape1 train_df = k -> shape1 test_df = k ->
      missing_of keys (columns train_df) <> [] ->
      fst (initiate_data_validation self w)
      = inl (NetworkSecurityException
               (PyExc "Exception" "Required columns missing in training data.")
               108))
  /\ (shape1 train_df = k -> shape1 test_df = k ->
      missing_of keys (columns train_df) = [] ->
      missing_of keys (columns test_df) <> [] ->
      fst (initiate_data_validation self w)
      = inl (NetworkSecurityException
               (PyExc "Exception" "Required columns missing in testing data.")
               110)).
Proof.
  intros Hf1 Hp1 Hf2 Hp2 Hk Hkeys.
  rewrite initiate_data_validation_eq. cbv zeta.
  rewrite read_data_eq, Hf1, Hp1. rewrite read_data_eq. simpl files.
  rewrite Hf2, Hp2.
  rewrite validate_number_of_columns_eq, Hk.
  split; [|split; [|split]].
  - intros Hne. apply Nat.eqb_neq in Hne. by rewrite Hne.
  - intros -> Hne. rewrite Nat.eqb_refl.
    rewrite validate_number_of_columns_eq, Hk.
    apply Nat.eqb_neq in Hne. by rewrite Hne.
  - intros -> Heq Hm. rewrite Nat.eqb_refl.
    rewrite validate_number_of_columns_eq, Hk, Heq, Nat.eqb_refl.
    rewrite validate_required_columns_eq, Hkeys.
    by destruct (missing_of keys (columns train_df)).
  - intros -> Heq Hm1 Hm2. rewrite Nat.eqb_refl.
    rewrite validate_number_of_columns_eq, Hk, Heq, Nat.eqb_refl.
    rewrite validate_required_columns_eq, Hkeys, Hm1.
    rewrite validate_required_columns_eq, Hkeys.
    by destruct (missing_of keys (columns test_df)).
Qed.

(** ** A train file that cannot be read *)

(** X4: When the train file is missing, or pandas refuses it, the run ends at
    line 97 with the reader's exception wrapped twice (first at line 29);
    the only thing that happened is the attempt to read the train file: the
    test file is not opened, nothing is checked, logged or written. *)
Theorem unreadable_train_ends_the_run self w :
  files w !! trained_file_path (data_ingestion_artifact self) = None
  \/ (exists bytes e,
        files w !! trained_file_path (data_ingestion_artifact self) = Some bytes
        /\ csv_parse bytes = inl e) ->
  exists cause,
    initiate_data_validation self w
    = (inl (NetworkSecurityException (NetworkSecurityException cause 29) 97),
       emit (EvReadCsv (trained_file_path (data_ingestion_artifact self))) w)
    /\ (files w !! trained_file_path (data_ingestion_artifact self) = None ->
        cause = PyExc "FileNotFoundError"
                  (trained_file_path (data_ingestion_artifact self)))
    /\ (forall bytes,
          files w !! trained_file_path (data_ingestion_artifact self) = Some bytes ->
          csv_parse bytes = inl cause).
Proof.
  intros Hbad. rewrite initiate_data_validation_eq. cbv zeta.
  rewrite read_data_eq.
  destruct Hbad as [Hnone|(bytes & e & Hsome & He)].
  - rewrite Hnone. eexists. split; [reflexivity|]. split; [done|].
    intros bytes [=].
  - rewrite Hsome, He. exists e. split; [reflexivity|]. split; [intros [=]|].
    intros bytes' [= <-]. done.
Qed.

(** ** Columns the current table lacks, and columns only it has *)

Lemma getitem_not_elem (df : DataFrame) label :
  label ∉ columns df -> getitem df label = inl (PyExc "KeyError" label).
Proof.
  intros Hno. unfold getitem.
  assert (Hnil : List.filter (fun col => String.eqb (fst col) label) df = []).
  { induction df as [|col df IH]; [done|]. simpl.
    unfold columns in Hno. simpl in Hno.
    apply not_elem_of_cons in Hno as [Hne Hno].
    destruct (String.eqb_spec (fst col) label) as [Heq|_]; [by subst|].
    by apply IH. }
  by rewrite Hnil.
Qed.

(** X5: When the current table lacks a label of the base table (the columns
    before it having been tested), drift detection raises [KeyError] for
    that label, caught at line 68 and wrapped; no report is written. *)
Theorem detect_missing_current_column
    self base_df current_df threshold w pre column post :
  columns base_df = (pre ++ column :: post)%list ->
  Forall (testable base_df current_df) pre ->
  column ∉ columns current_df ->
  exists w',
    detect_dataset_drift self base_df current_df threshold w
    = (inl (NetworkSecurityException (PyExc "KeyError" column) 68), w')
    /\ files w' = files w
    /\ exists evs, trace w' = (trace w ++ evs)%list
                   /\ forallb is_ks_event evs = true.
Proof.
  intros Hcols Hpre Hno.
  assert (Hin : column ∈ columns base_df).
  { rewrite Hcols. apply elem_of_app. right. left. }
  destruct (getitem_elem base_df column Hin) as [d1 H1].
  pose proof (getitem_not_elem current_df column Hno) as H2.
  pose proof (for_columns_frame base_df current_df threshold (columns base_df)
                true [] w) as Hframe. cbv zeta in Hframe.
  rewrite detect_dataset_drift_eq. cbv zeta.
  assert (Hloop : fst (for_columns base_df current_df threshold
                         (columns base_df) true [] w)
                  = inl (PyExc "KeyError" column, 68)).
  { rewrite Hcols, for_columns_app.
    destruct (for_columns_total _ _ threshold _ Hpre true [] w)
      as ([status1 rep1] & w1 & ->).
    simpl. unfold bind. by rewrite test_column_eq, H1, H2. }
  destruct (for_columns base_df current_df threshold (columns base_df)
              true [] w) as [out w1].
  simpl in Hloop, Hframe. subst out. by exists w1.
Qed.

Lemma for_columns_agree base_df current_df current_df' threshold cols :
  (forall c, c ∈ cols -> getitem current_df' c = getitem current_df c) ->
  forall status rep w,
    for_columns base_df current_df' threshold cols status rep w
    = for_columns base_df current_df threshold cols status rep w.
Proof.
  induction cols as [|column rest IH]; intros Hagree status rep w; simpl; [done|].
  unfold bind. rewrite !test_column_eq.
  rewrite (Hagree column) by left.
  destruct (getitem base_df column) as [e|d1]; [done|].
  destruct (getitem current_df column) as [e|d2]; [done|].
  destruct (ks_2samp d1 d2) as [e|p]; [done|].
  apply IH. intros c Hc. apply Hagree. by right.
Qed.

Lemma getitem_app_other (df extra : DataFrame) label :
  label ∉ columns extra ->
  getitem (df ++ extra)%list label = getitem df label.
Proof.
  intros Hno. unfold getitem. rewrite List.filter_app.
  assert (Hnil : List.filter (fun col => String.eqb (fst col) label) extra = []).
  { induction extra as [|col extra IH]; [done|]. simpl.
    unfold columns in Hno. simpl in Hno.
    apply not_elem_of_cons in Hno as [Hne Hno].
    destruct (String.eqb_spec (fst col) label) as [Heq|_]; [by subst|].
    by apply IH. }
  by rewrite Hnil, app_nil_r.
Qed.

(** X6: Drift detection looks at the current table only under the labels of the
    base table: columns that only the current table has are never tested,
    and the outcome, the report and the trail are the same with or without
    them. *)
Theorem detect_ignores_extra_current_columns
    self base_df current_df extra threshold w :
  (forall c, c ∈ columns extra -> c ∉ columns base_df) ->
  detect_dataset_drift self base_df (current_df ++ extra)%list threshold w
  = detect_dataset_drift self base_df current_df threshold w.
Proof.
  intros Hextra. rewrite !detect_dataset_drift_eq. cbv zeta.
  rewrite (for_columns_agree base_df current_df (current_df ++ extra)%list);
    [done|].
  intros c Hc. apply getitem_app_other. intros Hin. by apply (Hextra c).
Qed.

(** ** A report that cannot be written *)

Lemma for_columns_testable_trail base_df current_df threshold cols :
  Forall (testable base_df current_df) cols ->
  forall status rep w,
  exists out w' evs,
    for_columns base_df current_df threshold cols status rep w = (inr out, w')
    /\ files w' = files w
    /\ trace w' = (trace w ++ evs)%list
    /\ forallb is_ks_event evs = true
    /\ length evs = length cols.
Proof.
  induction 1 as [|column rest Hc _ IH]; intros status rep w; simpl.
  - eexists _, _, []. by rewrite app_nil_r.
  - unfold bind.
    destruct (test_column_testable base_df current_df threshold column w Hc)
      as (entry & d1 & d2 & ->).
    match goal with
    | |- context [for_columns _ _ _ rest ?s ?r ?v] =>
        destruct (IH s r v) as (out & w' & evs & -> & Hfiles & Htrace & Hks & Hlen)
    end.
    exists out, w', (EvKs2samp d1 d2 :: evs).
    split; [done|]. split; [done|]. split.
    { rewrite Htrace. simpl. by rewrite <- app_assoc. }
    split; [done|]. simpl. by rewrite Hlen.
Qed.

(** X7: When the KS test answers on every column but the system refuses the
    report's directory (line 83) or the report file (line 85), drift
    detection raises that refusal wrapped, after one KS test per column of
    the base table; the files are left as they were and no verdict is
    returned. *)
Theorem detect_report_refused self base_df current_df threshold w e :
  Forall (testable base_df current_df) (columns base_df) ->
  os_error (Makedirs (dirname (cfg_drift_report_file_path
                                 (data_validation_config self)))) = Some e
  \/ (os_error (Makedirs (dirname (cfg_drift_report_file_path
                                     (data_validation_config self)))) = None
      /\ os_error (OpenWrite (cfg_drift_report_file_path
                                (data_validation_config self))) = Some e) ->
  exists n w',
    detect_dataset_drift self base_df current_df threshold w
    = (inl (NetworkSecurityException e n), w')
    /\ (n = 83 \/ n = 85)
    /\ files w' = files w
    /\ length (List.filter is_ks_event (trace w'))
       = length (List.filter is_ks_event (trace w)) + length (columns base_df).
Proof.
  intros Htest Hos.
  destruct (for_columns_testable_trail _ _ threshold _ Htest true [] w)
    as ([status rep] & w1 & evs & Hloop & Hfiles & Htrace & Hks & Hlen).
  assert (Hcount : length (List.filter is_ks_event (trace w1))
                   = length (List.filter is_ks_event (trace w))
                     + length (columns base_df)).
  { rewrite Htrace, List.filter_app, length_app. f_equal.
    rewrite <- Hlen. f_equal. clear -Hks.
    induction evs as [|ev evs IH]; [done|]. simpl in *.
    apply andb_true_iff in Hks as [Hev Hks]. rewrite Hev. f_equal. by apply IH. }
  rewrite detect_dataset_drift_eq. cbv zeta. rewrite Hloop.
  destruct Hos as [Hmk|[Hmk Hwr]].
  - rewrite Hmk. eexists 83, _. split; [reflexivity|]. split; [by left|].
    split; [done|]. simpl. rewrite List.filter_app. simpl. by rewrite app_nil_r.
  - rewrite Hmk, Hwr. eexists 85, _. split; [reflexivity|]. split; [by right|].
    split; [done|]. simpl. rewrite !List.filter_app. simpl. by rewrite !app_nil_r.
Qed.

(** ** What a run writes, and where *)

Lemma read_data_files file_path w r w1 :
  read_data file_path w = (r, w1) -> files w1 = files w.
Proof. rewrite read_data_eq. by intros [= _ <-]. Qed.

Lemma validate_number_of_columns_files self dataframe w r w1 :
  validate_number_of_columns self dataframe w = (r, w1) -> files w1 = files w.
Proof.
  rewrite validate_number_of_columns_eq.
  destruct (schema_len self); by intros [= _ <-].
Qed.

Lemma validate_required_columns_files self dataframe w r w1 :
  validate_required_columns self dataframe w = (r, w1) -> files w1 = files w.
Proof.
  rewrite validate_required_columns_eq.
  destruct (schema_keys self); [by intros [= _ <-]|].
  destruct (missing_of _ _); by intros [= _ <-].
Qed.

Lemma detect_dataset_drift_files self base_df current_df threshold w r w1 path :
  detect_dataset_drift self base_df current_df threshold w = (r, w1) ->
  path <> cfg_drift_report_file_path (data_validation_config self) ->
  files w1 !! path = files w !! path.
Proof.
  rewrite detect_dataset_drift_eq. cbv zeta.
  destruct (for_columns_frame base_df current_df threshold (columns base_df)
              true [] w) as [Hfiles _].
  destruct (for_columns _ _ _ _ _ _ w) as [[[e n]|[status rep]] w0];
    simpl in Hfiles.
  { intros [= _ <-] _. by rewrite Hfiles. }
  destruct (os_error (Makedirs _)).
  { intros [= _ <-] _. simpl. by rewrite Hfiles. }
  destruct (os_error (OpenWrite _)).
  { intros [= _ <-] _. simpl. by rewrite Hfiles. }
  intros [= _ <-] Hne. simpl. rewrite lookup_insert_ne by done.
  by rewrite Hfiles.
Qed.

(** X8: Whatever its outcome, a run changes no file other than the drift
    report and the two valid copies: on failure as on success, every other
    path, the inputs and the schema included when they are not among those
    three, holds what it held. *)
Theorem run_touches_only_its_outputs self w path :
  path <> cfg_drift_report_file_path (data_validation_config self) ->
  path <> cfg_valid_train_file_path (data_validation_config self) ->
  path <> cfg_valid_test_file_path (data_validation_config self) ->
  files (snd (initiate_data_validation self w)) !! path = files w !! path.
Proof.
  intros Hr Ht Hs. rewrite initiate_data_validation_eq. cbv zeta.
  destruct (read_data _ w) as [[e|train_df] w1] eqn:H1;
    apply read_data_files in H1; [simpl; by rewrite H1|].
  destruct (read_data _ w1) as [[e|test_df] w2] eqn:H2;
    apply read_data_files in H2; [simpl; by rewrite H2, H1|].
  destruct (validate_number_of_columns self train_df w2) as [[e|[]] w3] eqn:H3;
    apply validate_number_of_columns_files in H3;
    [simpl; by rewrite H3, H2, H1| |simpl; by rewrite H3, H2, H1].
  destruct (validate_number_of_columns self test_df w3) as [[e|[]] w4] eqn:H4;
    apply validate_number_of_columns_files in H4;
    [simpl; by rewrite H4, H3, H2, H1| |simpl; by rewrite H4, H3, H2, H1].
  destruct (validate_required_columns self train_df w4) as [[e|[]] w5] eqn:H5;
    apply validate_required_columns_files in H5;
    [simpl; by rewrite H5, H4, H3, H2, H1| |simpl; by rewrite H5, H4, H3, H2, H1].
  destruct (validate_required_columns self test_df w5) as [[e|[]] w6] eqn:H6;
    apply validate_required_columns_files in H6;
    [simpl; by rewrite H6, H5, H4, H3, H2, H1|
    |simpl; by rewrite H6, H5, H4, H3, H2, H1].
  assert (Hw6 : files w6 = files w) by (by rewrite H6, H5, H4, H3, H2, H1).
  destruct (detect_dataset_drift self train_df test_df threshold_default w6)
    as [[e|status] w7] eqn:H7;
    apply (detect_dataset_drift_files _ _ _ _ _ _ _ path) in H7; try done;
    [simpl; by rewrite H7, Hw6|].
  destruct (os_error (Makedirs _)); [simpl; by rewrite H7, Hw6|].
  destruct (os_error (OpenWrite (cfg_valid_train_file_path _)));
    [simpl; by rewrite H7, Hw6|].
  destruct (os_error (OpenWrite (cfg_valid_test_file_path _))); simpl.
  - rewrite lookup_insert_ne by done. by rewrite H7, Hw6.
  - rewrite !lookup_insert_ne by done. by rewrite H7, Hw6.
Qed.

(** A run over valid tables whose loop ends and whose report is written
    reaches the last three steps, in a world [w7] that differs from the
    start by the report. *)
Lemma run_reaches_the_copies self w train_df test_df status rep :
  structurally_valid self (files w) train_df test_df ->
  (forall w0,
      fst (for_columns train_df test_df threshold_default (columns train_df)
             true [] w0) = inr (status, rep)) ->
  os_error (Makedirs (dirname (cfg_drift_report_file_path
                                 (data_validation_config self)))) = None ->
  os_error (OpenWrite (cfg_drift_report_file_path
                         (data_validation_config self))) = None ->
  exists w7,
    files w7 = <[cfg_drift_report_file_path (data_validation_config self)
                 := yaml_dump rep]> (files w)
    /\ initiate_data_validation self w =
       let config := data_validation_config self in
       let w8 := emit (EvMakedirs (dirname (cfg_valid_train_file_path config))) w7 in
       match os_error (Makedirs (dirname (cfg_valid_train_file_path config))) with
       | Some e => (inl (NetworkSecurityException e 116), w8)
       | None =>
       let w9 := emit (EvToCsv (cfg_valid_train_file_path config) train_df) w8 in
       match os_error (OpenWrite (cfg_valid_train_file_path config)) with
       | Some e => (inl (NetworkSecurityException e 117), w9)
       | None =>
       let w10 := emit (EvToCsv (cfg_valid_test_file_path config) test_df)
                    (store (cfg_valid_train_file_path config)
                       (csv_render train_df) w9) in
       match os_error (OpenWrite (cfg_valid_test_file_path config)) with
       | Some e => (inl (NetworkSecurityException e 118), w10)
       | None =>
           (inr (artifact_of self status),
            emit (EvLog (LogCompleted (artifact_of self status)))
              (store (cfg_valid_test_file_path config) (csv_render test_df) w10))
       end end end.
Proof.
  intros [(b1 & Hf1 & Hp1) (b2 & Hf2 & Hp2) Hk Hshape (keys & Hkeys & Hm1 & Hm2)]
    Hloop Hrd Hr.
  rewrite initiate_data_validation_eq. cbv zeta.
  rewrite read_data_eq, Hf1, Hp1. rewrite read_data_eq. simpl files.
  rewrite Hf2, Hp2.
  rewrite validate_number_of_columns_eq, Hk, Nat.eqb_refl.
  rewrite validate_number_of_columns_eq, Hk, Hshape, Nat.eqb_refl.
  rewrite validate_required_columns_eq, Hkeys, Hm1.
  rewrite validate_required_columns_eq, Hkeys, Hm2.
  rewrite detect_dataset_drift_eq. cbv zeta.
  match goal with
  | |- context [for_columns train_df test_df threshold_default
                  (columns train_df) true [] ?w6] =>
      pose proof (Hloop w6) as Hout;
      destruct (for_columns_frame train_df test_df threshold_default
                  (columns train_df) true [] w6) as (Hfiles & _);
      destruct (for_columns train_df test_df threshold_default
                  (columns train_df) true [] w6) as [out w7]
  end.
  simpl in Hout, Hfiles. subst out. rewrite Hrd, Hr.
  eexists. split; [|reflexivity]. simpl. by rewrite Hfiles.
Qed.

(** X9: When the tables are valid, the loop ends and the report is written, a
    refusal in the last three steps ends the run with that refusal wrapped
    once, and what was written before stays: the report alone when the
    valid directory (line 116) or the train copy (line 117) is refused, the
    report and the train copy when the test copy (line 118) is. *)
Theorem late_refusal_leaves_partial_outputs
    self w train_df test_df status rep e :
  structurally_valid self (files w) train_df test_df ->
  (forall w0,
      fst (for_columns train_df test_df threshold_default (columns train_df)
             true [] w0) = inr (status, rep)) ->
  os_error (Makedirs (dirname (cfg_drift_report_file_path
                                 (data_validation_config self)))) = None ->
  os_error (OpenWrite (cfg_drift_report_file_path
                         (data_validation_config self))) = None ->
  (os_error (Makedirs (dirname (cfg_valid_train_file_path
                                  (data_validation_config self)))) = Some e ->
   exists w',
     initiate_data_validation self w = (inl (NetworkSecurityException e 116), w')
     /\ files w' = <[cfg_drift_report_file_path (data_validation_config self)
                     := yaml_dump rep]> (files w))
  /\ (os_error (Makedirs (dirname (cfg_valid_train_file_path
                                     (data_validation_config self)))) = None ->
      os_error (OpenWrite (cfg_valid_train_file_path
                             (data_validation_config self))) = Some e ->
      exists w',
        initiate_data_validation self w
        = (inl (NetworkSecurityException e 117), w')
        /\ files w' = <[cfg_drift_report_file_path (data_validation_config self)
                        := yaml_dump rep]> (files w))
  /\ (os_error (Makedirs (dirname (cfg_valid_train_file_path
                                     (data_validation_config self)))) = None ->
      os_error (OpenWrite (cfg_valid_train_file_path
                             (data_validation_config self))) = None ->
      os_error (OpenWrite (cfg_valid_test_file_path
                             (data_validation_config self))) = Some e ->
      exists w',
        initiate_data_validation self w
        = (inl (NetworkSecurityException e 118), w')
        /\ files w'
           = <[cfg_valid_train_file_path (data_validation_config self)
               := csv_render train_df]>
               (<[cfg_drift_report_file_path (data_validation_config self)
                  := yaml_dump rep]> (files w))).
Proof.
  intros Hvalid Hloop Hrd Hr.
  destruct (run_reaches_the_copies _ _ _ _ _ _ Hvalid Hloop Hrd Hr)
    as (w7 & Hfiles & ->).
  cbv zeta. split; [|split].
  - intros ->. eexists. split; [reflexivity|]. done.
  - intros -> ->. eexists. split; [reflexivity|]. done.
  - intros -> -> ->. eexists. split; [reflexivity|]. simpl. by rewrite Hfiles.
Qed.

(** ** The verdict of a run *)

(** X10: Drift does not end a run: a run that returns (its status may be
    [False]) has read both tables and written the test copy; its
    [validation_status] is [False] exactly when some entry of the report it
    built has [drift_status] true, the report has an entry for exactly the
    labels of the train table, each holding the KS p-value of that label
    and its comparison with 0.05, and the report file holds that report
    unless a valid path is the same path. *)
Theorem run_verdict_follows_the_report self w artifact w' :
  initiate_data_validation self w = (inr artifact, w') ->
  exists train_df test_df rep,
    structurally_valid self (files w) train_df test_df
    /\ validation_status artifact = negb (any_drift rep)
    /\ (forall c, c ∈ map fst rep <-> c ∈ columns train_df)
    /\ (forall c entry, (c, entry) ∈ rep ->
          exists d1 d2,
            getitem train_df c = inr d1
            /\ getitem test_df c = inr d2
            /\ ks_2samp d1 d2 = inr (p_value entry)
            /\ drift_status entry = (p_value entry <? threshold_default)%float)
    /\ (cfg_drift_report_file_path (data_validation_config self)
        <> cfg_valid_train_file_path (data_validation_config self) ->
        cfg_drift_report_file_path (data_validation_config self)
        <> cfg_valid_test_file_path (data_validation_config self) ->
        files w' !! cfg_drift_report_file_path (data_validation_config self)
        = Some (yaml_dump rep))
    /\ files w' !! cfg_valid_test_file_path (data_validation_config self)
       = Some (csv_render test_df).
Proof.
  intros (train_df & test_df & status & rep & ks_events
          & Hp & -> & Hfiles & _ & _)%initiate_inr.
  pose proof (passes_loop _ _ _ _ _ _ Hp {| files := ∅; trace := [] |}) as Hloop.
  destruct (for_columns train_df test_df threshold_default (columns train_df)
              true [] {| files := ∅; trace := [] |}) as [out w0] eqn:Hrun.
  simpl in Hloop. subst out.
  destruct (for_columns_inr _ _ _ _ _ _ _ _ _ _ Hrun
              (report_ok_nil train_df test_df threshold_default))
    as ((Hnd & Hall & Hst) & Hkeys).
  exists train_df, test_df, rep.
  split; [by destruct Hp|]. split; [done|]. split; [|split; [|split]].
  - intros c. rewrite Hkeys. split; [|by right].
    intros [Hc|Hc]; [|done]. by apply not_elem_of_nil in Hc.
  - intros c entry Hin. rewrite Forall_forall in Hall.
    apply (Hall (c, entry)), Hin.
  - intros Hne1 Hne2. rewrite Hfiles. unfold files_after.
    rewrite !lookup_insert_ne by done. apply lookup_insert_eq.
  - rewrite Hfiles. unfold files_after. apply lookup_insert_eq.
Qed.

End More_properties.

(** * Properties of the rest of the repository *)

Section Rest_properties.

(** ** Stripping *)

Lemma drop_while_elem {A} (f : A -> bool) (l : list A) x :
  x ∈ drop_while f l -> x ∈ l.
Proof.
  induction l as [|y l IH]; simpl; [done|].
  destruct (f y); [|done]. intros Hx. right. by apply IH.
Qed.

Lemma drop_while_head {A} (f : A -> bool) (l : list A) x l' :
  drop_while f l = x :: l' -> f x = false.
Proof.
  induction l as [|y l IH]; simpl; [done|].
  destruct (f y) eqn:Hy; [done|]. by intros [= <- _].
Qed.

Lemma drop_while_keep {A} (f : A -> bool) (l : list A) x l' :
  l = x :: l' -> f x = false -> drop_while f l = l.
Proof. intros -> Hx. simpl. by rewrite Hx. Qed.

Lemma drop_while_idem {A} (f : A -> bool) (l : list A) :
  drop_while f (drop_while f l) = drop_while f l.
Proof.
  destruct (drop_while f l) as [|x l'] eqn:Hd; [done|].
  eapply drop_while_keep; [done|]. by eapply drop_while_head.
Qed.

Lemma drop_while_suffix {A} (f : A -> bool) (l : list A) :
  exists pre, l = (pre ++ drop_while f l)%list.
Proof.
  induction l as [|y l [pre IH]]; simpl; [by exists []|].
  destruct (f y); [|by exists []].
  exists (y :: pre). simpl. by rewrite <- IH.
Qed.

Lemma drop_while_snoc {A} (f : A -> bool) (l : list A) c :
  f c = true ->
  drop_while f (l ++ [c])
  = if forallb f l then [] else (drop_while f l ++ [c])%list.
Proof.
  intros Hc. induction l as [|y l IH]; simpl; [by rewrite Hc|].
  destruct (f y); simpl; [exact IH|done].
Qed.

Lemma drop_while_all {A} (f : A -> bool) (l : list A) :
  forallb f l = true -> drop_while f l = [].
Proof.
  induction l as [|y l IH]; simpl; [done|].
  destruct (f y); simpl; [exact IH|done].
Qed.

Lemma rstrip_snoc l c : isspace c = true -> rstrip (l ++ [c]) = rstrip l.
Proof.
  intros Hc. unfold rstrip. rewrite rev_app_distr. simpl. by rewrite Hc.
Qed.

Lemma rstrip_prefix l : exists post, l = (rstrip l ++ post)%list.
Proof.
  unfold rstrip. destruct (drop_while_suffix isspace (rev l)) as [pre Hpre].
  exists (rev pre). rewrite <- rev_app_distr, <- Hpre. by rewrite rev_involutive.
Qed.

Lemma rstrip_idem l : rstrip (rstrip l) = rstrip l.
Proof. unfold rstrip. by rewrite rev_involutive, drop_while_idem. Qed.

Lemma strip_snoc l c :
  isspace c = true -> rstrip (lstrip (l ++ [c])) = rstrip (lstrip l).
Proof.
  intros Hc. unfold lstrip. rewrite drop_while_snoc by done.
  destruct (forallb isspace l) eqn:Hall.
  - by rewrite drop_while_all.
  - by apply rstrip_snoc.
Qed.

Lemma strip_elem l x : x ∈ rstrip (lstrip l) -> x ∈ l.
Proof.
  intros Hx. apply (drop_while_elem isspace). fold (lstrip l).
  destruct (rstrip_prefix (lstrip l)) as [post ->].
  apply elem_of_app. by left.
Qed.

Lemma lstrip_strip l : lstrip (rstrip (lstrip l)) = rstrip (lstrip l).
Proof.
  destruct (rstrip_prefix (lstrip l)) as [post Hpost].
  destruct (rstrip (lstrip l)) as [|x t] eqn:Ht; [done|].
  unfold lstrip at 1. eapply drop_while_keep; [done|].
  eapply (drop_while_head isspace l). fold (lstrip l). by rewrite Hpost.
Qed.

(** [strip] of a stripped text changes nothing. *)
Lemma str_strip_idem s : str_strip (str_strip s) = str_strip s.
Proof.
  unfold str_strip. rewrite list_ascii_of_string_of_list_ascii.
  by rewrite lstrip_strip, rstrip_idem.
Qed.

Lemma chars_app s1 s2 :
  list_ascii_of_string (s1 ++ s2)
  = (list_ascii_of_string s1 ++ list_ascii_of_string s2)%list.
Proof. induction s1 as [|c s1 IH]; simpl; [done|]. by rewrite IH. Qed.

Lemma str_strip_line_break body :
  str_strip (body ++ String char_LF "") = str_strip body.
Proof.
  unfold str_strip. rewrite chars_app. simpl. by rewrite strip_snoc.
Qed.

Lemma str_strip_chars s x :
  x ∈ list_ascii_of_string (str_strip s) -> x ∈ list_ascii_of_string s.
Proof.
  unfold str_strip. rewrite list_ascii_of_string_of_list_ascii. apply strip_elem.
Qed.

(** ** Lines *)

(** A line of [readlines] has no line break but, possibly, a last one. *)
Lemma readlines_shape s :
  Forall (fun line =>
            exists body,
              (char_LF ∉ list_ascii_of_string body)
              /\ (line = (body ++ String char_LF "") \/ line = body))
         (readlines s).
Proof.
  induction s as [|c s IH]; simpl; [constructor|].
  destruct (Ascii.eqb_spec c char_LF) as [->|Hc].
  - constructor; [|done]. exists "". split; [apply not_elem_of_nil|by left].
  - destruct (readlines s) as [|line lines]; simpl.
    + constructor; [|done]. exists (String c ""). split; [|by right].
      simpl. intros [Heq|Hin%not_elem_of_nil]%elem_of_cons; done.
    + apply Forall_cons in IH as [(body & Hbody & Hline) IH].
      constructor; [|done]. exists (String c body). split.
      * simpl. intros [Heq|Hin]%elem_of_cons; done.
      * destruct Hline as [-> | ->]; [by left|by right].
Qed.

Lemma readlines_chars s line x :
  line ∈ readlines s -> x ∈ list_ascii_of_string line ->
  x ∈ list_ascii_of_string s.
Proof.
  revert line. induction s as [|c s IH]; simpl; intros line Hline Hx.
  { by apply not_elem_of_nil in Hline. }
  destruct (Ascii.eqb c char_LF).
  - apply elem_of_cons in Hline as [->|Hline].
    + simpl in Hx. apply elem_of_cons in Hx as [->|Hx]; [left|].
      by apply not_elem_of_nil in Hx.
    + right. by eapply IH.
  - destruct (readlines s) as [|line' lines] eqn:Hr.
    + apply list_elem_of_singleton in Hline as ->. simpl in Hx.
      apply elem_of_cons in Hx as [->|Hx]; [left|].
      by apply not_elem_of_nil in Hx.
    + apply elem_of_cons in Hline as [->|Hline].
      * simpl in Hx. apply elem_of_cons in Hx as [->|Hx]; [left|].
        right. eapply IH; [left|done].
      * right. eapply IH; [by right|done].
Qed.

Lemma universal_newlines_no_CR_upto n :
  forall s, String.length s <= n ->
            char_CR ∉ list_ascii_of_string (universal_newlines s).
Proof.
  induction n as [|n IH]; intros s Hlen.
  { destruct s; [apply not_elem_of_nil|simpl in Hlen; lia]. }
  destruct s as [|c s]; [apply not_elem_of_nil|].
  cbn [universal_newlines]. cbn [String.length] in Hlen.
  destruct (Ascii.eqb_spec c char_CR) as [->|Hc].
  - destruct s as [|c' s'].
    + cbn [list_ascii_of_string].
      intros [[=]|Hin%not_elem_of_nil]%elem_of_cons; done.
    + cbn [String.length] in Hlen.
      destruct (Ascii.eqb c' char_LF); cbn [list_ascii_of_string];
        intros [[=]|Hin]%elem_of_cons; revert Hin; apply IH;
        cbn [String.length]; lia.
  - cbn [list_ascii_of_string]. intros [Heq|Hin]%elem_of_cons; [done|].
    revert Hin. apply IH. lia.
Qed.

Lemma universal_newlines_no_CR s :
  char_CR ∉ list_ascii_of_string (universal_newlines s).
Proof. by apply (universal_newlines_no_CR_upto (String.length s)). Qed.

Lemma universal_newlines_id s :
  char_CR ∉ list_ascii_of_string s -> universal_newlines s = s.
Proof.
  induction s as [|c s IH]; simpl; [done|]. intros Hno.
  apply not_elem_of_cons in Hno as [Hc Hno].
  destruct (Ascii.eqb_spec c char_CR) as [->|_]; [done|]. by rewrite IH.
Qed.

(** ** [get_requirements] *)

Lemma requirements_loop_eq lines requirement_lst :
  requirements_loop lines requirement_lst
  = (requirement_lst
     ++ List.filter
          (fun r => negb (String.eqb r "") && negb (String.eqb r "-e ."))
          (map str_strip lines))%list.
Proof.
  revert requirement_lst.
  induction lines as [|line rest IH]; intros acc; simpl.
  - by rewrite app_nil_r.
  - destruct (negb _ && negb _); rewrite IH; [|done].
    by rewrite <- app_assoc.
Qed.

Lemma requirement_of_line content r :
  r ∈ requirements_loop (readlines (universal_newlines content)) [] ->
  exists line,
    line ∈ readlines (universal_newlines content)
    /\ r = str_strip line /\ r <> "" /\ r <> "-e .".
Proof.
  rewrite requirements_loop_eq. simpl.
  intros Hr. apply list_elem_of_In, filter_In in Hr as [Hr Hkeep].
  apply in_map_iff in Hr as (line & <- & Hline).
  apply andb_true_iff in Hkeep as [H1 H2].
  apply negb_true_iff in H1, H2.
  exists line. split; [by apply list_elem_of_In|]. split; [done|].
  split; intros Heq; rewrite Heq in *; discriminate.
Qed.

Lemma requirement_is_clean content r :
  r ∈ requirements_loop (readlines (universal_newlines content)) [] ->
  r <> "" /\ r <> "-e ." /\ str_strip r = r
  /\ (char_LF ∉ list_ascii_of_string r)
  /\ (char_CR ∉ list_ascii_of_string r).
Proof.
  intros (line & Hline & -> & Hne & Hed)%requirement_of_line.
  split; [done|]. split; [done|]. split; [apply str_strip_idem|].
  split.
  - pose proof (readlines_shape (universal_newlines content)) as Hshape.
    rewrite Forall_forall in Hshape.
    destruct (Hshape line Hline) as (body & Hbody & [-> | ->]).
    + rewrite str_strip_line_break. intros Hin. by apply str_strip_chars in Hin.
    + intros Hin. by apply str_strip_chars in Hin.
  - intros Hin. apply str_strip_chars in Hin.
    apply (universal_newlines_no_CR content).
    by eapply readlines_chars.
Qed.

(** X11: Every entry [get_requirements] returns is a non-empty single line
    without blanks at either end and is not ["-e ."]: it holds no line feed
    and no carriage return, and stripping it again changes nothing. *)
Theorem requirements_are_clean requirements_txt requirement_lst printed :
  get_requirements requirements_txt = (inr requirement_lst, printed) ->
  Forall (fun r =>
            r <> "" /\ r <> "-e ." /\ str_strip r = r
            /\ (char_LF ∉ list_ascii_of_string r)
            /\ (char_CR ∉ list_ascii_of_string r))
         requirement_lst.
Proof.
  destruct requirements_txt as [e|content]; simpl.
  - destruct (is_FileNotFoundError e); intros [= <- <-]. constructor.
  - intros [= <- <-]. apply Forall_forall. intros r Hr.
    by eapply requirement_is_clean.
Qed.

(** X12: A missing [requirements.txt] is forgiven: on [FileNotFoundError] the
    result is the empty list and a notice is printed (only then); any other
    exception of opening or reading escapes as it is, unwrapped.  The result
    is the empty list exactly when the file is missing or every line of it,
    stripped, is empty or ["-e ."]. *)
Theorem no_requirements_iff requirements_txt :
  (fst (get_requirements requirements_txt) = inr [] <->
   (exists e, requirements_txt = Raised e /\ is_FileNotFoundError e = true)
   \/ exists content,
        requirements_txt = Opened content
        /\ Forall (fun line => str_strip line = "" \/ str_strip line = "-e .")
             (readlines (universal_newlines content)))
  /\ (snd (get_requirements requirements_txt)
      = ["requirements.txt file not found."] <->
      exists e, requirements_txt = Raised e /\ is_FileNotFoundError e = true)
  /\ (forall e, fst (get_requirements requirements_txt) = inl e <->
                requirements_txt = Raised e /\ is_FileNotFoundError e = false).
Proof.
  split; [|split].
  - destruct requirements_txt as [e|content]; simpl.
    + destruct (is_FileNotFoundError e) eqn:He; simpl.
      * split; [|done]. intros _. left. by exists e.
      * split; [done|].
        intros [(e' & [= <-] & He')|(content & [=] & _)]. congruence.
    + rewrite requirements_loop_eq. simpl. split.
      * intros [= Hnil]. right. exists content. split; [done|].
        apply Forall_forall. intros line Hline.
        destruct (String.eqb_spec (str_strip line) "") as [|Hne]; [by left|].
        destruct (String.eqb_spec (str_strip line) "-e .") as [|Hed]; [by right|].
        exfalso.
        assert (Hin : In (str_strip line)
                        (List.filter
                           (fun r => negb (String.eqb r "")
                                     && negb (String.eqb r "-e ."))
                           (map str_strip
                              (readlines (universal_newlines content))))).
        { apply filter_In. split.
          - apply in_map. by apply list_elem_of_In.
          - apply andb_true_iff.
            split; apply negb_true_iff; by apply String.eqb_neq. }
        rewrite Hnil in Hin. destruct Hin.
      * intros [(e & [=] & _)|(content' & [= <-] & Hall)]. f_equal.
        induction (readlines (universal_newlines content)) as [|line rest IH];
          [done|]. simpl.
        apply Forall_cons in Hall as [Hline Hall].
        destruct Hline as [-> | ->]; simpl; by apply IH.
  - destruct requirements_txt as [e|content]; simpl.
    + destruct (is_FileNotFoundError e) eqn:He; simpl.
      * split; [|done]. intros _. by exists e.
      * split; [done|]. intros (e' & [= <-] & He'). congruence.
    + split; [done|]. by intros (e & [=] & _).
  - intros e. destruct requirements_txt as [e'|content]; simpl.
    + destruct (is_FileNotFoundError e') eqn:He; simpl.
      * split; [done|]. intros [[= <-] He']. congruence.
      * split; [by intros [= ->]|]. by intros [[= ->] _].
    + split; [done|]. by intros [[=] _].
Qed.

Lemma append_cons c (s1 s2 : string) : String c s1 ++ s2 = String c (s1 ++ s2).
Proof. reflexivity. Qed.

Lemma append_assoc_string (s1 s2 s3 : string) :
  (s1 ++ s2) ++ s3 = s1 ++ (s2 ++ s3).
Proof.
  induction s1 as [|c s1 IH]; [done|]. rewrite !append_cons. by rewrite IH.
Qed.

Lemma one_per_line_cons entry entries :
  one_per_line (entry :: entries)
  = entry ++ String char_LF (one_per_line entries).
Proof.
  unfold one_per_line. simpl.
  destruct entries as [|entry' entries]; simpl.
  - done.
  - by rewrite append_assoc_string.
Qed.

Lemma readlines_line body rest :
  char_LF ∉ list_ascii_of_string body ->
  readlines (body ++ String char_LF rest)
  = (body ++ String char_LF "") :: readlines rest.
Proof.
  induction body as [|c body IH]; simpl; intros Hno.
  - done.
  - apply not_elem_of_cons in Hno as [Hc Hno].
    destruct (Ascii.eqb_spec c char_LF) as [->|_]; [done|].
    by rewrite IH.
Qed.

Lemma one_per_line_no_CR entries :
  Forall (fun r => char_CR ∉ list_ascii_of_string r) entries ->
  char_CR ∉ list_ascii_of_string (one_per_line entries).
Proof.
  induction 1 as [|entry entries Hentry _ IH]; [apply not_elem_of_nil|].
  rewrite one_per_line_cons, chars_app. simpl.
  rewrite not_elem_of_app, not_elem_of_cons. done.
Qed.

Lemma read_one_per_line entries :
  Forall (fun r => r <> "" /\ r <> "-e ." /\ str_strip r = r
                   /\ (char_LF ∉ list_ascii_of_string r)
                   /\ (char_CR ∉ list_ascii_of_string r)) entries ->
  get_requirements (Opened (one_per_line entries)) = (inr entries, []).
Proof.
  intros Hclean. simpl. f_equal. f_equal.
  rewrite universal_newlines_id.
  2:{ apply one_per_line_no_CR. eapply Forall_impl; [exact Hclean|].
      intros r Hr. apply Hr. }
  rewrite requirements_loop_eq. simpl.
  induction Hclean as [|entry entries (Hne & Hed & Hstrip & Hlf & Hcr) _ IH];
    [done|].
  rewrite one_per_line_cons, readlines_line by done. simpl.
  rewrite str_strip_line_break, Hstrip.
  apply String.eqb_neq in Hne, Hed. rewrite Hne, Hed. simpl. by rewrite IH.
Qed.

(** X13: Writing the returned entries back, one per line, and reading that file
    again gives the same list: what [get_requirements] returns is a fixed
    point of it. *)
Theorem requirements_round_trip requirements_txt requirement_lst printed :
  get_requirements requirements_txt = (inr requirement_lst, printed) ->
  get_requirements (Opened (one_per_line requirement_lst))
  = (inr requirement_lst, []).
Proof.
  intros Hrun. apply read_one_per_line.
  destruct requirements_txt as [e|content]; simpl in Hrun.
  - destruct (is_FileNotFoundError e); [|discriminate].
    injection Hrun as <- <-. constructor.
  - injection Hrun as <- <-. apply Forall_forall. intros r Hr.
    by eapply requirement_is_clean.
Qed.

Lemma universal_newlines_to_crlf content :
  char_CR ∉ list_ascii_of_string content ->
  universal_newlines (to_crlf content) = content.
Proof.
  induction content as [|c content IH]; simpl; [done|]. intros Hno.
  apply not_elem_of_cons in Hno as [Hc Hno].
  destruct (Ascii.eqb_spec c char_LF) as [->|Hlf].
  - simpl. by rewrite IH.
  - simpl. destruct (Ascii.eqb_spec c char_CR) as [->|_]; [done|].
    by rewrite IH.
Qed.

(** X14: A requirements file saved with Windows line ends gives the same list
    as the file with Unix line ends. *)
Theorem crlf_file_gives_the_same_requirements content :
  char_CR ∉ list_ascii_of_string content ->
  get_requirements (Opened (to_crlf content))
  = get_requirements (Opened content).
Proof.
  intros Hno. simpl.
  by rewrite universal_newlines_to_crlf, universal_newlines_id.
Qed.

End Rest_properties.

Section Message_properties.

Context `{Collaborators}.

(** ** The message of a wrapped exception *)

Lemma str_ends_with_root_cause filename builtin_str e :
  exists wrappers cls msg,
    root_cause e = PyExc cls msg
    /\ __str__ filename builtin_str e = wrappers ++ builtin_str cls msg.
Proof.
  induction e as [cls msg|inner (wrappers & cls & msg & Hroot & Hstr) n].
  - by exists "", cls, msg.
  - exists ("Error occurred in script: " ++ filename
            ++ " at line number: " ++ pretty n
            ++ " with message: " ++ wrappers), cls, msg.
    split; [done|]. simpl. rewrite Hstr.
    by rewrite !append_assoc_string.
Qed.

Lemma str_wrapped filename builtin_str inner n :
  __str__ filename builtin_str (NetworkSecurityException inner n)
  = sentence filename n ++ __str__ filename builtin_str inner.
Proof. simpl. unfold sentence. by rewrite !append_assoc_string. Qed.

Lemma str_unfolds filename builtin_str e :
  exists cls msg,
    root_cause e = PyExc cls msg
    /\ __str__ filename builtin_str e
       = foldr (fun l rest => sentence filename l ++ rest)
           (builtin_str cls msg) (wrapper_lines e).
Proof.
  induction e as [cls msg|inner (cls & msg & Hroot & Hstr) n].
  - by exists cls, msg.
  - exists cls, msg. split; [done|]. rewrite str_wrapped. simpl. by rewrite Hstr.
Qed.

(** Where the orchestrator's exception comes from, line by line. *)
Lemma initiate_data_validation_raises_at self w e w' :
  initiate_data_validation self w = (inl e, w') ->
  exists inner n,
    e = NetworkSecurityException inner n
    /\ ((helper_line n = true
         /\ exists cause l, inner = NetworkSecurityException cause l)
        \/ (exists msg,
              inner = PyExc "Exception" msg /\ (n, msg) ∈ structural_errors)
        \/ (exists op, os_error op = Some inner /\ (n, op) ∈ output_steps self)).
Proof.
  rewrite initiate_data_validation_eq. cbv zeta.
  destruct (read_data _ w) as [[e1|train_df] w1] eqn:H1.
  { intros [= <- <-]. apply read_data_raises in H1.
    eexists _, _. split; [done|]. left. by split. }
  destruct (read_data _ w1) as [[e2|test_df] w2] eqn:H2.
  { intros [= <- <-]. apply read_data_raises in H2.
    eexists _, _. split; [done|]. left. by split. }
  destruct (validate_number_of_columns self train_df w2) as [[e3|[]] w3] eqn:H3.
  { intros [= <- <-]. apply validate_number_of_columns_raises in H3.
    eexists _, _. split; [done|]. left. by split. }
  2:{ intros [= <- <-]. eexists _, _. split; [done|]. right. left.
      eexists. split; [done|]. unfold structural_errors. repeat constructor. }
  destruct (validate_number_of_columns self test_df w3) as [[e4|[]] w4] eqn:H4.
  { intros [= <- <-]. apply validate_number_of_columns_raises in H4.
    eexists _, _. split; [done|]. left. by split. }
  2:{ intros [= <- <-]. eexists _, _. split; [done|]. right. left.
      eexists. split; [done|]. unfold structural_errors. repeat constructor. }
  destruct (validate_required_columns self train_df w4) as [[e5|[]] w5] eqn:H5.
  { intros [= <- <-]. apply validate_required_columns_raises in H5.
    eexists _, _. split; [done|]. left. by split. }
  2:{ intros [= <- <-]. eexists _, _. split; [done|]. right. left.
      eexists. split; [done|]. unfold structural_errors. repeat constructor. }
  destruct (validate_required_columns self test_df w5) as [[e6|[]] w6] eqn:H6.
  { intros [= <- <-]. apply validate_required_columns_raises in H6.
    eexists _, _. split; [done|]. left. by split. }
  2:{ intros [= <- <-]. eexists _, _. split; [done|]. right. left.
      eexists. split; [done|]. unfold structural_errors. repeat constructor. }
  destruct (detect_dataset_drift self train_df test_df threshold_default w6)
    as [[e7|status] w7] eqn:H7.
  { intros [= <- <-]. apply detect_dataset_drift_raises in H7.
    eexists _, _. split; [done|]. left. by split. }
  destruct (os_error (Makedirs _)) as [e8|] eqn:H8.
  { intros [= <- <-]. eexists _, _. split; [done|]. right. right.
    eexists. split; [exact H8|]. unfold output_steps. repeat constructor. }
  destruct (os_error (OpenWrite (cfg_valid_train_file_path _))) as [e9|] eqn:H9.
  { intros [= <- <-]. eexists _, _. split; [done|]. right. right.
    eexists. split; [exact H9|]. unfold output_steps. repeat constructor. }
  destruct (os_error (OpenWrite (cfg_valid_test_file_path _))) as [e10|] eqn:H10.
  { intros [= <- <-]. eexists _, _. split; [done|]. right. right.
    eexists. split; [exact H10|]. unfold output_steps. repeat constructor. }
  discriminate.
Qed.

Lemma structural_errors_line n msg :
  (n, msg) ∈ structural_errors -> orchestrator_line n = true.
Proof.
  unfold structural_errors. intros Hin.
  repeat (apply elem_of_cons in Hin as [[= -> _]|Hin]; [reflexivity|]).
  by apply elem_of_nil in Hin.
Qed.

Lemma output_steps_line self n op :
  (n, op) ∈ output_steps self -> orchestrator_line n = true.
Proof.
  unfold output_steps. intros Hin.
  repeat (apply elem_of_cons in Hin as [[= -> _]|Hin]; [reflexivity|]).
  by apply elem_of_nil in Hin.
Qed.

Lemma helper_line_orchestrator n : helper_line n = true -> orchestrator_line n = true.
Proof.
  unfold helper_line. simpl. rewrite !orb_true_iff, !Nat.eqb_eq.
  intros Hn. decompose [or] Hn; subst; done.
Qed.

(** X15: the exception [e] a run raises is a [NetworkSecurityException]
    whose recorded line [n] is a statement of the orchestrator's [try]
    block and whose [error_message] is [inner]; [str(e)] is the sentence of
    line 13 for [n] followed by [str(inner)].  When [n] is a line that
    calls a helper, [inner] is the helper's [NetworkSecurityException] and
    the message is two sentences, for [n] and for the helper's line,
    followed by the message of the helper's cause; when [n] is one of the
    four [raise Exception(msg)], the message is one sentence followed by
    [msg] as [Exception] prints it; otherwise [n] is one of lines 116 to 118
    and [inner] is the system's refusal of that line's request.  In every
    case the message is one sentence per wrapper, outermost first, followed
    by the text of the exception at the bottom, which is not a
    [NetworkSecurityException]: wrapping never loses the original
    message. *)
Theorem run_error_message_keeps_the_cause self w e w' filename builtin_str :
  initiate_data_validation self w = (inl e, w') ->
  exists inner n,
    e = NetworkSecurityException inner n
    /\ orchestrator_line n = true
    /\ __str__ filename builtin_str e
       = "Error occurred in script: " ++ filename
         ++ " at line number: " ++ pretty n
         ++ " with message: " ++ __str__ filename builtin_str inner
    /\ ((helper_line n = true
         /\ exists cause l,
              inner = NetworkSecurityException cause l
              /\ __str__ filename builtin_str e
                 = sentence filename n ++ sentence filename l
                   ++ __str__ filename builtin_str cause)
        \/ (exists msg,
              inner = PyExc "Exception" msg
              /\ (n, msg) ∈ structural_errors
              /\ __str__ filename builtin_str e
                 = sentence filename n ++ builtin_str "Exception" msg)
        \/ (exists op,
              os_error op = Some inner /\ (n, op) ∈ output_steps self))
    /\ exists cls msg,
         root_cause inner = PyExc cls msg
         /\ wrapper_lines e = n :: wrapper_lines inner
         /\ __str__ filename builtin_str e
            = foldr (fun l rest => sentence filename l ++ rest)
                (builtin_str cls msg) (wrapper_lines e).
Proof.
  intros (inner & n & -> & Hcase)%initiate_data_validation_raises_at.
  exists inner, n. split; [done|]. split.
  { destruct Hcase as [[Hn _]|[(msg & _ & Hin)|(op & _ & Hin)]].
    - by apply helper_line_orchestrator.
    - by eapply structural_errors_line.
    - by eapply output_steps_line. }
  split; [done|]. split.
  - destruct Hcase as [[Hn (cause & l & ->)]|[(msg & -> & Hin)|(op & Hop & Hin)]].
    + left. split; [done|]. exists cause, l. split; [done|].
      by rewrite !str_wrapped.
    + right. left. exists msg. split; [done|]. split; [done|].
      by rewrite str_wrapped.
    + right. right. by exists op.
  - destruct (str_unfolds filename builtin_str
                (NetworkSecurityException inner n))
      as (cls & msg & Hroot & Hstr).
    by exists cls, msg.
Qed.

End Message_properties.

Section Metrics_properties.

Context `{Sklearn}.

(** ** [get_classification_score] *)

(** X16: The scorers are called in the order f1, recall, precision and the first
    one that raises decides: its exception comes back wrapped with its line
    (10, 11 or 12) and no record is built.  When all three answer, the
    record holds each score under its own name (precision and recall are not
    swapped, though they are computed in one order and passed in the
    other).  Nothing is written or logged either way. *)
Theorem classification_score_first_failure_wins y_true y_preds w :
  snd (get_classification_score y_true y_preds w) = w
  /\ fst (get_classification_score y_true y_preds w)
     = match sklearn_f1_score y_true y_preds with
       | inl e => inl (NetworkSecurityException e 10)
       | inr f1 =>
           match sklearn_recall_score y_true y_preds with
           | inl e => inl (NetworkSecurityException e 11)
           | inr recall =>
               match sklearn_precision_score y_true y_preds with
               | inl e => inl (NetworkSecurityException e 12)
               | inr precision =>
                   inr {| f1_score := f1;
                          precision_score := precision;
                          recall_score := recall |}
               end
           end
       end.
Proof.
  unfold get_classification_score, try_except, bind, at_line, lift, ret.
  destruct (sklearn_f1_score y_true y_preds); [done|].
  destruct (sklearn_recall_score y_true y_preds); [done|].
  destruct (sklearn_precision_score y_true y_preds); done.
Qed.

End Metrics_properties.

Section Pipeline_properties.

Context `{Collaborators} `{Stages}.

(** ** The pipeline around the validator *)

Lemma main_reaches_validation w tpc ingested self w' said :
  reaches_validation w tpc ingested self w' ->
  main {| outside := w; console := said |} =
  match initiate_data_validation self w' with
  | (inl e, w7) =>
      (inl (NetworkSecurityException e 29),
       {| outside := w7;
          console := (said ++ said_before_validation ingested)%list |})
  | (inr artifact, w7) =>
      let said7 :=
        (said ++ said_before_validation ingested
         ++ [Logged "Data Validation Completed Successfully.";
             PrintedValidation artifact])%list in
      match new_DataTransformationConfig tpc w7 with
      | (inl e, w8) =>
          (inl (NetworkSecurityException e 34),
           {| outside := w8; console := said7 |})
      | (inr dtc, w8) =>
      match new_DataTransformation artifact dtc w8 with
      | (inl e, w9) =>
          (inl (NetworkSecurityException e 35),
           {| outside := w9; console := said7 |})
      | (inr dt, w9) =>
      match initiate_data_transformation dt w9 with
      | (inl e, w10) =>
          (inl (NetworkSecurityException e 37),
           {| outside := w10;
              console := (said7 ++ [Logged "Initiating Data Transformation"])%list |})
      | (inr transformed, w10) =>
          (inr tt,
           {| outside := w10;
              console :=
                (said7 ++ [Logged "Initiating Data Transformation";
                           Logged "Data Transformation Completed";
                           PrintedTransformation transformed])%list |})
      end end end
  end.
Proof.
  intros (w1 & dic & w2 & di & w3 & w4 & dvc & w5
          & H1 & H2 & H3 & H4 & H5 & H6).
  unfold main, main_try, pbind, stage, say, pret. simpl.
  rewrite H1. simpl. rewrite H2. simpl. rewrite H3. simpl. rewrite H4. simpl.
  rewrite H5. simpl. rewrite H6. simpl.
  unfold said_before_validation.
  destruct (initiate_data_validation self w') as [[e|artifact] w7]; simpl.
  { by rewrite <- !app_assoc. }
  destruct (new_DataTransformationConfig tpc w7) as [[e|dtc] w8]; simpl.
  { by rewrite <- !app_assoc. }
  destruct (new_DataTransformation artifact dtc w8) as [[e|dt] w9]; simpl.
  { by rewrite <- !app_assoc. }
  destruct (initiate_data_transformation dt w9) as [[e|transformed] w10]; simpl;
    by rewrite <- !app_assoc.
Qed.


(** X18: Drift does not stop the pipeline: when the validator returns a record,
    whatever its [validation_status], the script goes on to build the
    transformation from that very record; if the transformation stage
    returns, the script ends normally, having printed the three artifacts
    in order. *)
Theorem pipeline_goes_on_after_validation
    w tpc ingested self w' said artifact w7 dtc w8 dt w9 transformed w10 :
  reaches_validation w tpc ingested self w' ->
  initiate_data_validation self w' = (inr artifact, w7) ->
  new_DataTransformationConfig tpc w7 = (inr dtc, w8) ->
  new_DataTransformation artifact dtc w8 = (inr dt, w9) ->
  initiate_data_transformation dt w9 = (inr transformed, w10) ->
  main {| outside := w; console := said |}
  = (inr tt,
     {| outside := w10;
        console :=
          (said ++ said_before_validation ingested
           ++ [Logged "Data Validation Completed Successfully.";
               PrintedValidation artifact;
               Logged "Initiating Data Transformation";
               Logged "Data Transformation Completed";
               PrintedTransformation transformed])%list |}).
Proof.
  intros Hreach Hrun H8 H9 H10.
  rewrite (main_reaches_validation _ _ _ _ _ _ Hreach), Hrun. cbv zeta.
  rewrite H8, H9, H10. by rewrite <- !app_assoc.
Qed.

End Pipeline_properties.

(** * The statements on the fixture *)

Import Fixture.

Lemma validate_number_of_columns_iff_witness :
  exists b,
    fst (validate_number_of_columns bare_validator []
           (world_of train_bytes test_bytes)) = inr b
    /\ (b = true <-> length (columns []) = 0)
    /\ forall other : DataFrame,
         length (columns other) = length (columns []) ->
         fst (validate_number_of_columns bare_validator other
                (world_of train_bytes test_bytes)) = inr b.
Proof.
  exact (@validate_number_of_columns_iff bare_validator []
           (world_of train_bytes test_bytes) (YMap []) 0 eq_refl eq_refl).
Defined.

Lemma validate_required_columns_iff_witness :
  exists b w',
    validate_required_columns validator short_table
      (world_of train_bytes short_bytes) = (inr b, w')
    /\ (b = true <->
        (list_to_set (map fst [("a", YStr "int64"); ("b", YStr "int64")])
         : gset string) ⊆ list_to_set (columns short_table))
    /\ (b = true -> w' = world_of train_bytes short_bytes)
    /\ (b = false ->
        exists missing,
          w' = emit (EvLog (LogMissingColumns missing))
                 (world_of train_bytes short_bytes)
          /\ (list_to_set missing : gset string)
             = list_to_set (map fst [("a", YStr "int64"); ("b", YStr "int64")])
               ∖ list_to_set (columns short_table)).
Proof.
  exact (@validate_required_columns_iff validator short_table
           (world_of train_bytes short_bytes)
           [("a", YStr "int64"); ("b", YStr "int64")] eq_refl).
Defined.

Lemma fixture_ks_answers (base_df current_df : DataFrame) :
  base_df = train_table -> current_df = shifted_table ->
  forall c d1 d2,
    getitem base_df c = inr d1 -> getitem current_df c = inr d2 ->
    exists p, ks_2samp d1 d2 = inr p.
Proof.
  intros -> -> c d1 d2.
  unfold getitem, train_table, shifted_table. cbn [List.filter fst snd].
  destruct (String.eqb_spec "a" c) as [<-|Ha].
  - simpl. intros [= <-] [= <-]. by eexists.
  - destruct (String.eqb_spec "b" c) as [<-|Hb]; [|by intros [=]].
    simpl. intros [= <-] [= <-]. by eexists.
Defined.

Lemma detect_dataset_drift_verdict_witness :
  exists rep w',
    detect_dataset_drift validator train_table shifted_table threshold_default
      (world_of train_bytes shifted_bytes)
    = (inr (negb (any_drift rep)), w')
    /\ files w' = <[cfg_drift_report_file_path (data_validation_config validator)
                    := yaml_dump rep]> (files (world_of train_bytes shifted_bytes))
    /\ (forall c, c ∈ map fst rep <-> c ∈ columns train_table)
    /\ (forall c entry, (c, entry) ∈ rep ->
          exists d1 d2,
            getitem train_table c = inr d1
            /\ getitem shifted_table c = inr d2
            /\ ks_2samp d1 d2 = inr (p_value entry)
            /\ drift_status entry = (p_value entry <? threshold_default)%float)
    /\ (forall c entry, (c, entry) ∈ rep -> drift_status entry = true ->
          negb (any_drift rep) = false).
Proof.
  apply (@detect_dataset_drift_verdict env validator train_table shifted_table
           threshold_default (world_of train_bytes shifted_bytes)).
  - intros c. reflexivity.
  - by apply fixture_ks_answers.
  - reflexivity.
  - reflexivity.
Defined.

Lemma fixture_ks_range d1 d2 p :
  ks d1 d2 = inr p -> ((0 <=? p) && (p <=? 1))%float = true.
Proof.
  unfold ks. destruct d1 as [v1|], d2 as [v2|]; try discriminate.
  destruct v1, v2; try discriminate.
  destruct (_ || _); [discriminate|].
  destruct (same_values _ _); intros [= <-]; reflexivity.
Defined.

Lemma drift_report_records_ks_values_witness :
  exists rep,
    files (snd (detect_dataset_drift validator train_table shifted_table
                  threshold_default (world_of train_bytes shifted_bytes)))
      !! cfg_drift_report_file_path (data_validation_config validator)
    = Some (yaml_dump rep)
    /\ map fst rep = columns train_table
    /\ Forall (fun item =>
                 exists d1 d2,
                   getitem train_table (fst item) = inr d1
                   /\ getitem shifted_table (fst item) = inr d2
                   /\ ks_2samp d1 d2 = inr (p_value (snd item))
                   /\ drift_status (snd item)
                      = (p_value (snd item) <? threshold_default)%float) rep
    /\ ((forall d1 d2 p, ks_2samp d1 d2 = inr p ->
           ((0 <=? p) && (p <=? 1))%float = true) ->
        Forall (fun item =>
                  ((0 <=? p_value (snd item)) && (p_value (snd item) <=? 1))%float
                  = true) rep)
    /\ false = negb (any_drift rep).
Proof.
  apply (@drift_report_records_ks_values env validator train_table
           shifted_table threshold_default
           (world_of train_bytes shifted_bytes) false).
  - compute_done.
  - vm_compute. reflexivity.
Defined.

Lemma structural_failure_stops_run_witness :
  exists msg n w',
    initiate_data_validation validator (world_of train_bytes short_bytes)
    = (inl (NetworkSecurityException (PyExc "Exception" msg) n), w')
    /\ (n = 102 \/ n = 104 \/ n = 108 \/ n = 110)
    /\ files w' = files (world_of train_bytes short_bytes)
    /\ exists evs,
         trace w' = (trace (world_of train_bytes short_bytes) ++ evs)%list
         /\ forallb (fun ev => negb (drift_event ev)) evs = true.
Proof.
  apply (@structural_failure_stops_run env validator
           (world_of train_bytes short_bytes) train_bytes short_bytes
           train_table short_table); [reflexivity..|].
  right. left. intros w. reflexivity.
Defined.

(** The fixture run over identical train and test files, and what it
    leaves. *)
Lemma fixture_run :
  initiate_data_validation validator (world_of train_bytes test_bytes)
  = (inr (artifact_of validator true),
     snd (initiate_data_validation validator (world_of train_bytes test_bytes))).
Proof. vm_compute. reflexivity. Defined.

Lemma validated_files_are_rendered_tables_witness :
  exists bytes1 bytes2 train_df test_df,
    files (world_of train_bytes test_bytes) !! "artifacts/ingested/train.csv"
    = Some bytes1
    /\ parse bytes1 = inr train_df
    /\ files (world_of train_bytes test_bytes) !! "artifacts/ingested/test.csv"
       = Some bytes2
    /\ parse bytes2 = inr test_df
    /\ files (snd (initiate_data_validation validator
                     (world_of train_bytes test_bytes)))
         !! "artifacts/validated/test.csv" = Some (render test_df)
    /\ ("artifacts/validated/train.csv" <> "artifacts/validated/test.csv" ->
        files (snd (initiate_data_validation validator
                      (world_of train_bytes test_bytes)))
          !! "artifacts/validated/train.csv" = Some (render train_df))
    /\ (files (snd (initiate_data_validation validator
                      (world_of train_bytes test_bytes)))
          !! "artifacts/ingested/train.csv"
        = files (world_of train_bytes test_bytes) !! "artifacts/ingested/train.csv" ->
        files (snd (initiate_data_validation validator
                      (world_of train_bytes test_bytes)))
          !! "artifacts/ingested/test.csv"
        = files (world_of train_bytes test_bytes) !! "artifacts/ingested/test.csv" ->
        exists w'',
          initiate_data_validation validator
            (snd (initiate_data_validation validator
                    (world_of train_bytes test_bytes)))
          = (inr (artifact_of validator true), w'')
          /\ files w''
             = files (snd (initiate_data_validation validator
                             (world_of train_bytes test_bytes)))).
Proof.
  exact (@validated_files_are_rendered_tables env validator
           (world_of train_bytes test_bytes) (artifact_of validator true)
           (snd (initiate_data_validation validator
                   (world_of train_bytes test_bytes)))
           fixture_run).
Defined.

Lemma result_record_has_no_invalid_split_witness :
  invalid_train_file_path (artifact_of validator true) = None
  /\ invalid_test_file_path (artifact_of validator true) = None
  /\ (exists evs,
        trace (snd (initiate_data_validation validator
                      (world_of train_bytes test_bytes)))
        = (trace (world_of train_bytes test_bytes) ++ evs
           ++ [EvLog (LogCompleted (artifact_of validator true))])%list
        /\ (forall a, EvLog (LogCompleted a) ∉ evs)
        /\ (forall path df, EvToCsv path df ∈ evs ->
              path = "artifacts/validated/train.csv"
              \/ path = "artifacts/validated/test.csv"))
  /\ (forall path,
        path <> "artifacts/drift_report/report.yaml" ->
        path <> "artifacts/validated/train.csv" ->
        path <> "artifacts/validated/test.csv" ->
        files (snd (initiate_data_validation validator
                      (world_of train_bytes test_bytes))) !! path
        = files (world_of train_bytes test_bytes) !! path).
Proof.
  exact (@result_record_has_no_invalid_split env validator
           (world_of train_bytes test_bytes) (artifact_of validator true)
           (snd (initiate_data_validation validator
                   (world_of train_bytes test_bytes)))
           fixture_run).
Defined.




(** ** Where the specification and the code part *)


(** Against C4 as stated: the second row of the train file has no value
    for ["a"]; pandas reads the cell as NaN and the KS routine returns NaN
    for the column.  Drift detection returns [True], the run returns with
    validation status [True], and the report they write records NaN as the
    p-value of ["a"], which is not in [0,1]. *)
Lemma nan_p_value_is_recorded :
  @csv_parse Propagating.nan_env Propagating.gap_bytes
  = inr Propagating.gap_table
  /\ fst (@detect_dataset_drift Propagating.nan_env validator
            Propagating.gap_table train_table threshold_default
            (world_of Propagating.gap_bytes test_bytes))
     = inr true
  /\ files (snd (@detect_dataset_drift Propagating.nan_env validator
                   Propagating.gap_table train_table threshold_default
                   (world_of Propagating.gap_bytes test_bytes)))
       !! "artifacts/drift_report/report.yaml"
     = Some (dump [("a", {| p_value := nan; drift_status := false |});
                   ("b", {| p_value := 1; drift_status := false |})])
  /\ fst (@initiate_data_validation Propagating.nan_env validator
            (world_of Propagating.gap_bytes test_bytes))
     = inr (artifact_of validator true)
  /\ files (snd (@initiate_data_validation Propagating.nan_env validator
                   (world_of Propagating.gap_bytes test_bytes)))
       !! "artifacts/drift_report/report.yaml"
     = Some (dump [("a", {| p_value := nan; drift_status := false |});
                   ("b", {| p_value := 1; drift_status := false |})])
  /\ ((0 <=? nan) && (nan <=? 1))%float = false.
Proof. repeat split; vm_compute; reflexivity. Qed.

(** Against C8 as stated: the train file lacks its final line break; the
    run returns and the validated copy ends with one, so it is not the input
    byte for byte. *)
Lemma validated_copy_differs_from_input :
  fst (initiate_data_validation validator (world_of ragged_bytes test_bytes))
  = inr (artifact_of validator true)
  /\ files (world_of ragged_bytes test_bytes) !! "artifacts/ingested/train.csv"
     = Some ragged_bytes
  /\ files (snd (initiate_data_validation validator
                   (world_of ragged_bytes test_bytes)))
       !! "artifacts/validated/train.csv"
     = Some (ragged_bytes ++ NL)
  /\ ragged_bytes ++ NL <> ragged_bytes.
Proof. repeat split; vm_compute; (reflexivity || discriminate). Qed.

(** ** The remaining statements, evaluated *)

Example init_loads_fixture_schema :
  fst (__init__ ingestion config (world_of train_bytes test_bytes))
  = inr validator.
Proof. vm_compute. reflexivity. Qed.

Example init_refuses_empty_schema :
  fst (__init__ ingestion config
         {| files := {["data_schema/schema.yaml" := "columns: {}" ++ NL]};
            trace := [] |})
  = inl (NetworkSecurityException
           (PyExc "SchemaLoadError" "schema declares zero columns") 21).
Proof. vm_compute. reflexivity. Qed.

Example count_check_failure_is_wrapped_twice :
  fst (initiate_data_validation null_validator (world_of train_bytes test_bytes))
  = inl (NetworkSecurityException
           (NetworkSecurityException
              (PyExc "TypeError" "'NoneType' object is not subscriptable") 36)
           101).
Proof. vm_compute. reflexivity. Qed.

Example missing_file_is_wrapped_twice :
  fst (initiate_data_validation validator {| files := ∅; trace := [] |})
  = inl (NetworkSecurityException
           (NetworkSecurityException
              (PyExc "FileNotFoundError" "artifacts/ingested/train.csv") 29)
           97).
Proof. vm_compute. reflexivity. Qed.

Example default_threshold_is_strict :
  ((0.04 <? threshold_default) = true
   /\ (threshold_default <? threshold_default) = false
   /\ (nan <? threshold_default) = false)%float.
Proof. repeat split; reflexivity. Qed.

(** * The further statements on the fixture *)

Import Samples.

Lemma checks_pin_the_column_set_witness :
  columns train_table ≡ₚ map fst [("a", YStr "int64"); ("b", YStr "int64")].
Proof.
  apply (@checks_pin_the_column_set validator train_table
           [("a", YStr "int64"); ("b", YStr "int64")]).
  - reflexivity.
  - compute_done.
  - compute_done.
  - intros w. reflexivity.
  - intros w. reflexivity.
Defined.

Lemma sequence_schema_fails_at_required_check_witness :
  answers (validate_number_of_columns sequence_validator train_table) true
  /\ (forall w0,
        validate_required_columns sequence_validator train_table w0
        = (inl (NetworkSecurityException
                  (PyExc "AttributeError" "'list' object has no attribute 'keys'")
                  49), w0))
  /\ exists w',
       initiate_data_validation sequence_validator
         (world_of train_bytes test_bytes)
       = (inl (NetworkSecurityException
                 (NetworkSecurityException
                    (PyExc "AttributeError"
                       "'list' object has no attribute 'keys'") 49) 107), w')
       /\ files w' = files (world_of train_bytes test_bytes).
Proof.
  apply (@sequence_schema_fails_at_required_check env sequence_validator
           (world_of train_bytes test_bytes)
           [YMap [("a", YStr "int64")]; YMap [("b", YStr "int64")]]
           train_bytes test_bytes train_table train_table); reflexivity.
Defined.

Lemma structural_errors_in_order_witness :
  (shape1 train_table <> 2 ->
   fst (initiate_data_validation validator (world_of train_bytes short_bytes))
   = inl (NetworkSecurityException
            (PyExc "Exception"
               "Number of columns do not match schema for training data.") 102))
  /\ (shape1 train_table = 2 -> shape1 short_table <> 2 ->
      fst (initiate_data_validation validator (world_of train_bytes short_bytes))
      = inl (NetworkSecurityException
               (PyExc "Exception"
                  "Number of columns do not match schema for testing data.") 104))
  /\ (shape1 train_table = 2 -> shape1 short_table = 2 ->
      missing_of ["a"; "b"] (columns train_table) <> [] ->
      fst (initiate_data_validation validator (world_of train_bytes short_bytes))
      = inl (NetworkSecurityException
               (PyExc "Exception" "Required columns missing in training data.")
               108))
  /\ (shape1 train_table = 2 -> shape1 short_table = 2 ->
      missing_of ["a"; "b"] (columns train_table) = [] ->
      missing_of ["a"; "b"] (columns short_table) <> [] ->
      fst (initiate_data_validation validator (world_of train_bytes short_bytes))
      = inl (NetworkSecurityException
               (PyExc "Exception" "Required columns missing in testing data.")
               110)).
Proof.
  apply (@structural_errors_in_order env validator
           (world_of train_bytes short_bytes) train_bytes short_bytes
           train_table short_table 2 ["a"; "b"]); reflexivity.
Defined.

Lemma unreadable_train_ends_the_run_witness :
  exists cause,
    initiate_data_validation validator {| files := ∅; trace := [] |}
    = (inl (NetworkSecurityException (NetworkSecurityException cause 29) 97),
       emit (EvReadCsv "artifacts/ingested/train.csv")
         {| files := ∅; trace := [] |})
    /\ ((∅ : gmap string string) !! "artifacts/ingested/train.csv" = None ->
        cause = PyExc "FileNotFoundError" "artifacts/ingested/train.csv")
    /\ (forall bytes,
          (∅ : gmap string string) !! "artifacts/ingested/train.csv" = Some bytes ->
          parse bytes = inl cause).
Proof.
  apply (@unreadable_train_ends_the_run env validator
           {| files := ∅; trace := [] |}).
  left. reflexivity.
Defined.

Lemma fixture_first_column_testable :
  Forall (testable train_table short_table) ["a"].
Proof.
  constructor; [|constructor].
  by exists (Series [Int 1; Int 2]), (Series [Int 1]), 0%float.
Defined.

Lemma detect_missing_current_column_witness :
  exists w',
    detect_dataset_drift validator train_table short_table threshold_default
      (world_of train_bytes short_bytes)
    = (inl (NetworkSecurityException (PyExc "KeyError" "b") 68), w')
    /\ files w' = files (world_of train_bytes short_bytes)
    /\ exists evs,
         trace w' = (trace (world_of train_bytes short_bytes) ++ evs)%list
         /\ forallb is_ks_event evs = true.
Proof.
  apply (@detect_missing_current_column env validator train_table short_table
           threshold_default (world_of train_bytes short_bytes) ["a"] "b" []).
  - reflexivity.
  - exact fixture_first_column_testable.
  - compute_done.
Defined.

Lemma detect_ignores_extra_current_columns_witness :
  detect_dataset_drift validator train_table (shifted_table ++ extra_column)%list
    threshold_default (world_of train_bytes shifted_bytes)
  = detect_dataset_drift validator train_table shifted_table
      threshold_default (world_of train_bytes shifted_bytes).
Proof.
  apply (@detect_ignores_extra_current_columns env validator train_table
           shifted_table extra_column threshold_default
           (world_of train_bytes shifted_bytes)).
  intros c Hc. apply list_elem_of_singleton in Hc as ->. compute_done.
Defined.

Lemma fixture_columns_testable :
  Forall (testable train_table shifted_table) (columns train_table).
Proof.
  constructor; [|constructor; [|constructor]].
  - by exists (Series [Int 1; Int 2]), (Series [Int 5; Int 6]), 0%float.
  - by exists (Series [Int 7; Int 7]), (Series [Int 7; Int 7]), 1%float.
Defined.

Lemma detect_report_refused_witness :
  exists n w',
    detect_dataset_drift refused_report_validator train_table shifted_table
      threshold_default (world_of train_bytes shifted_bytes)
    = (inl (NetworkSecurityException (PyExc "PermissionError" "/proc/report.yaml")
              n), w')
    /\ (n = 83 \/ n = 85)
    /\ files w' = files (world_of train_bytes shifted_bytes)
    /\ length (List.filter is_ks_event (trace w'))
       = length (List.filter is_ks_event
                   (trace (world_of train_bytes shifted_bytes)))
         + length (columns train_table).
Proof.
  apply (@detect_report_refused env refused_report_validator train_table
           shifted_table threshold_default (world_of train_bytes shifted_bytes)).
  - exact fixture_columns_testable.
  - right. split; reflexivity.
Defined.

Lemma run_touches_only_its_outputs_witness :
  files (snd (initiate_data_validation validator
                (world_of train_bytes shifted_bytes)))
    !! "data_schema/schema.yaml"
  = files (world_of train_bytes shifted_bytes) !! "data_schema/schema.yaml".
Proof.
  apply (@run_touches_only_its_outputs env validator
           (world_of train_bytes shifted_bytes) "data_schema/schema.yaml");
    discriminate.
Defined.

Lemma fixture_shifted_valid :
  structurally_valid refused_copy_validator
    (files (world_of train_bytes shifted_bytes)) train_table shifted_table.
Proof.
  split.
  - by exists train_bytes.
  - by exists shifted_bytes.
  - reflexivity.
  - reflexivity.
  - by exists ["a"; "b"].
Defined.

Lemma late_refusal_leaves_partial_outputs_witness :
  (os (Makedirs "artifacts/validated")
   = Some (PyExc "PermissionError" "/proc/test.csv") ->
   exists w',
     initiate_data_validation refused_copy_validator
       (world_of train_bytes shifted_bytes)
     = (inl (NetworkSecurityException
               (PyExc "PermissionError" "/proc/test.csv") 116), w')
     /\ files w'
        = <["artifacts/drift_report/report.yaml"
            := dump [("a", {| p_value := 0; drift_status := true |});
                     ("b", {| p_value := 1; drift_status := false |})]]>
            (files (world_of train_bytes shifted_bytes)))
  /\ (os (Makedirs "artifacts/validated") = None ->
      os (OpenWrite "artifacts/validated/train.csv")
      = Some (PyExc "PermissionError" "/proc/test.csv") ->
      exists w',
        initiate_data_validation refused_copy_validator
          (world_of train_bytes shifted_bytes)
        = (inl (NetworkSecurityException
                  (PyExc "PermissionError" "/proc/test.csv") 117), w')
        /\ files w'
           = <["artifacts/drift_report/report.yaml"
               := dump [("a", {| p_value := 0; drift_status := true |});
                        ("b", {| p_value := 1; drift_status := false |})]]>
               (files (world_of train_bytes shifted_bytes)))
  /\ (os (Makedirs "artifacts/validated") = None ->
      os (OpenWrite "artifacts/validated/train.csv") = None ->
      os (OpenWrite "/proc/test.csv")
      = Some (PyExc "PermissionError" "/proc/test.csv") ->
      exists w',
        initiate_data_validation refused_copy_validator
          (world_of train_bytes shifted_bytes)
        = (inl (NetworkSecurityException
                  (PyExc "PermissionError" "/proc/test.csv") 118), w')
        /\ files w'
           = <["artifacts/validated/train.csv" := render train_table]>
               (<["artifacts/drift_report/report.yaml"
                  := dump [("a", {| p_value := 0; drift_status := true |});
                           ("b", {| p_value := 1; drift_status := false |})]]>
                  (files (world_of train_bytes shifted_bytes)))).
Proof.
  apply (@late_refusal_leaves_partial_outputs env refused_copy_validator
           (world_of train_bytes shifted_bytes) train_table shifted_table false
           [("a", {| p_value := 0; drift_status := true |});
            ("b", {| p_value := 1; drift_status := false |})]
           (PyExc "PermissionError" "/proc/test.csv")).
  - exact fixture_shifted_valid.
  - intros w0. reflexivity.
  - reflexivity.
  - reflexivity.
Defined.

Lemma fixture_shifted_run :
  initiate_data_validation validator (world_of train_bytes shifted_bytes)
  = (inr (artifact_of validator false),
     snd (initiate_data_validation validator (world_of train_bytes shifted_bytes))).
Proof. vm_compute. reflexivity. Defined.

Lemma run_verdict_follows_the_report_witness :
  exists train_df test_df rep,
    structurally_valid validator (files (world_of train_bytes shifted_bytes))
      train_df test_df
    /\ validation_status (artifact_of validator false) = negb (any_drift rep)
    /\ (forall c, c ∈ map fst rep <-> c ∈ columns train_df)
    /\ (forall c entry, (c, entry) ∈ rep ->
          exists d1 d2,
            getitem train_df c = inr d1
            /\ getitem test_df c = inr d2
            /\ ks d1 d2 = inr (p_value entry)
            /\ drift_status entry = (p_value entry <? threshold_default)%float)
    /\ ("artifacts/drift_report/report.yaml" <> "artifacts/validated/train.csv" ->
        "artifacts/drift_report/report.yaml" <> "artifacts/validated/test.csv" ->
        files (snd (initiate_data_validation validator
                      (world_of train_bytes shifted_bytes)))
          !! "artifacts/drift_report/report.yaml" = Some (dump rep))
    /\ files (snd (initiate_data_validation validator
                     (world_of train_bytes shifted_bytes)))
         !! "artifacts/validated/test.csv" = Some (render test_df).
Proof.
  exact (@run_verdict_follows_the_report env validator
           (world_of train_bytes shifted_bytes) (artifact_of validator false)
           (snd (initiate_data_validation validator
                   (world_of train_bytes shifted_bytes)))
           fixture_shifted_run).
Defined.

Lemma fixture_requirements :
  get_requirements (Opened requirements_text)
  = (inr ["pandas"; "numpy"; "scipy"], []).
Proof. reflexivity. Defined.

Lemma requirements_are_clean_witness :
  Forall (fun r =>
            r <> "" /\ r <> "-e ." /\ str_strip r = r
            /\ (char_LF ∉ list_ascii_of_string r)
            /\ (char_CR ∉ list_ascii_of_string r))
         ["pandas"; "numpy"; "scipy"].
Proof.
  exact (@requirements_are_clean (Opened requirements_text)
           ["pandas"; "numpy"; "scipy"] [] fixture_requirements).
Defined.

Lemma requirements_round_trip_witness :
  get_requirements (Opened (one_per_line ["pandas"; "numpy"; "scipy"]))
  = (inr ["pandas"; "numpy"; "scipy"], []).
Proof.
  exact (@requirements_round_trip (Opened requirements_text)
           ["pandas"; "numpy"; "scipy"] [] fixture_requirements).
Defined.

Lemma crlf_file_gives_the_same_requirements_witness :
  get_requirements (Opened (to_crlf requirements_text))
  = get_requirements (Opened requirements_text).
Proof.
  apply (@crlf_file_gives_the_same_requirements requirements_text).
  compute_done.
Defined.

Lemma fixture_null_run :
  initiate_data_validation null_validator (world_of train_bytes test_bytes)
  = (inl (NetworkSecurityException
            (NetworkSecurityException
               (PyExc "TypeError" "'NoneType' object is not subscriptable") 36)
            101),
     snd (initiate_data_validation null_validator
            (world_of train_bytes test_bytes))).
Proof. vm_compute. reflexivity. Defined.

Lemma run_error_message_keeps_the_cause_witness :
  exists inner n,
    NetworkSecurityException
      (NetworkSecurityException
         (PyExc "TypeError" "'NoneType' object is not subscriptable") 36)
      101
    = NetworkSecurityException inner n
    /\ orchestrator_line n = true
    /\ __str__ "data_validation.py" (fun _ msg => msg)
         (NetworkSecurityException
            (NetworkSecurityException
               (PyExc "TypeError" "'NoneType' object is not subscriptable") 36)
            101)
       = "Error occurred in script: " ++ "data_validation.py"
         ++ " at line number: " ++ pretty n
         ++ " with message: "
         ++ __str__ "data_validation.py" (fun _ msg => msg) inner
    /\ ((helper_line n = true
         /\ exists cause l,
              inner = NetworkSecurityException cause l
              /\ __str__ "data_validation.py" (fun _ msg => msg)
                   (NetworkSecurityException
                      (NetworkSecurityException
                         (PyExc "TypeError"
                            "'NoneType' object is not subscriptable") 36)
                      101)
                 = sentence "data_validation.py" n
                   ++ sentence "data_validation.py" l
                   ++ __str__ "data_validation.py" (fun _ msg => msg) cause)
        \/ (exists msg,
              inner = PyExc "Exception" msg
              /\ (n, msg) ∈ structural_errors
              /\ __str__ "data_validation.py" (fun _ msg => msg)
                   (NetworkSecurityException
                      (NetworkSecurityException
                         (PyExc "TypeError"
                            "'NoneType' object is not subscriptable") 36)
                      101)
                 = sentence "data_validation.py" n ++ msg)
        \/ (exists op,
              os_error op = Some inner /\ (n, op) ∈ output_steps null_validator))
    /\ exists cls msg,
         root_cause inner = PyExc cls msg
         /\ wrapper_lines
              (NetworkSecurityException
                 (NetworkSecurityException
                    (PyExc "TypeError" "'NoneType' object is not subscriptable")
                    36) 101)
            = n :: wrapper_lines inner
         /\ __str__ "data_validation.py" (fun _ msg => msg)
              (NetworkSecurityException
                 (NetworkSecurityException
                    (PyExc "TypeError" "'NoneType' object is not subscriptable")
                    36) 101)
            = foldr (fun l rest => sentence "data_validation.py" l ++ rest) msg
                (wrapper_lines
                   (NetworkSecurityException
                      (NetworkSecurityException
                         (PyExc "TypeError"
                            "'NoneType' object is not subscriptable") 36)
                      101)).
Proof.
  exact (@run_error_message_keeps_the_cause env null_validator
           (world_of train_bytes test_bytes) _ _ "data_validation.py"
           (fun _ msg => msg) fixture_null_run).
Defined.

Lemma fixture_reaches_validation (train test : string) :
  reaches_validation (world_of train test) tt ingestion validator
    (emit (EvReadYaml "data_schema/schema.yaml") (world_of train test)).
Proof.
  exists (world_of train test), tt, (world_of train test), tt,
    (world_of train test), (world_of train test), config, (world_of train test).
  repeat split.
Defined.



Lemma fixture_drift_run :
  initiate_data_validation validator
    (emit (EvReadYaml "data_schema/schema.yaml")
       (world_of train_bytes shifted_bytes))
  = (inr (artifact_of validator false),
     snd (initiate_data_validation validator
            (emit (EvReadYaml "data_schema/schema.yaml")
               (world_of train_bytes shifted_bytes)))).
Proof. vm_compute. reflexivity. Defined.

Lemma pipeline_goes_on_after_validation_witness :
  main {| outside := world_of train_bytes shifted_bytes; console := [] |}
  = (inr tt,
     {| outside :=
          snd (initiate_data_validation validator
                 (emit (EvReadYaml "data_schema/schema.yaml")
                    (world_of train_bytes shifted_bytes)));
        console :=
          ([] ++ said_before_validation ingestion
           ++ [Logged "Data Validation Completed Successfully.";
               PrintedValidation (artifact_of validator false);
               Logged "Initiating Data Transformation";
               Logged "Data Transformation Completed";
               PrintedTransformation false])%list |}).
Proof.
  exact (@pipeline_goes_on_after_validation env stages
           (world_of train_bytes shifted_bytes) tt ingestion validator _ []
           (artifact_of validator false) _ tt _ (artifact_of validator false) _
           false _
           (fixture_reaches_validation train_bytes shifted_bytes)
           fixture_drift_run eq_refl eq_refl eq_refl).
Defined.
